(** * WhatsApp lead notification service

    A shallow embedding of [app/services/whatsapp_notification_service.py]:
    the duplicate-notification guard, the extraction of the lead fields
    from the conversation answers, the fan-out to the configured lawyers
    and the two companion operations.

    Python values are embedded as a small universe of JSON-like values,
    Python exceptions as an error outcome, and the collaborators the
    service only calls into (environment, Firestore, the Baileys
    messaging client, the lawyers configuration, the clock, the logger)
    as an explicit world that every operation threads through. *)

From stdpp Require Import base option list gmap.
From Stdlib Require Import ZArith NArith Ascii Lia.
From Stdlib Require String.
Import String.StringSyntax.

Local Open Scope Z_scope.

(** ** Python strings

    A Python [str] is a sequence of Unicode code points; [len] and
    slicing count code points.  Literals are written as they are in the
    source file and decoded from their UTF-8 bytes. *)

Definition pystr : Type := list N.

Fixpoint utf8_decode (bs : list N) : list N :=
  match bs with
  | [] => []
  | b0 :: r0 =>
      if (b0 <? 128)%N then b0 :: utf8_decode r0
      else if (b0 <? 224)%N then
        match r0 with
        | b1 :: r1 => ((b0 - 192) * 64 + (b1 - 128))%N :: utf8_decode r1
        | _ => []
        end
      else if (b0 <? 240)%N then
        match r0 with
        | b1 :: b2 :: r2 =>
            ((b0 - 224) * 4096 + (b1 - 128) * 64 + (b2 - 128))%N
              :: utf8_decode r2
        | _ => []
        end
      else
        match r0 with
        | b1 :: b2 :: b3 :: r3 =>
            ((b0 - 240) * 262144 + (b1 - 128) * 4096
             + (b2 - 128) * 64 + (b3 - 128))%N :: utf8_decode r3
        | _ => []
        end
  end.

Definition py (s : String.string) : pystr :=
  utf8_decode (map N_of_ascii (String.list_ascii_of_string s)).
Arguments py s%_string_scope : simpl never.

(** [str.lower()] restricted to the ASCII capitals.  The service only
    compares the lowered text with ["true"], and no code point outside
    [A-Z] lowers to one of [t], [r], [u], [e], so the comparison is
    decided as in Python. *)
Definition lower_cp (c : N) : N :=
  if ((65 <=? c) && (c <=? 90))%N then (c + 32)%N else c.

Definition lower (s : pystr) : pystr := map lower_cp s.

(** ** Python values and exceptions

    The values are those a Firestore document or a JSON payload is made
    of, without floating-point numbers; dictionaries have string keys and
    keep the order of insertion.  An exception carries the object the
    failed operation was applied to, so that its text can depend on it;
    [External] is an exception raised by a collaborator. *)

#[local] Set Warnings "-register-all".

Inductive PyVal : Type :=
  | VNone
  | VBool (b : bool)
  | VInt (z : Z)
  | VStr (s : pystr)
  | VTime (t : nat)
  | VList (l : list PyVal)
  | VDict (d : list (pystr * PyVal)).

Definition pydict : Type := list (pystr * PyVal).

Inductive exn : Type :=
  | AttributeError (x : PyVal)
  | TypeError (x : PyVal)
  | NotFound (document : pystr)
  | External (msg : pystr).

Inductive outcome (A : Type) : Type :=
  | Ret (a : A)
  | Raise (e : exn).
Arguments Ret {A} a.
Arguments Raise {A} e.

#[export] Instance outcome_ret : MRet outcome := fun A a => Ret a.
#[export] Instance outcome_bind : MBind outcome := fun A B f m =>
  match m with
  | Ret a => f a
  | Raise e => Raise e
  end.

(** [d.get(k)] on a dict: the first binding of the key. *)
Fixpoint dict_lookup (k : pystr) (d : pydict) : option PyVal :=
  match d with
  | [] => None
  | (k', v) :: d' => if bool_decide (k' = k) then Some v else dict_lookup k d'
  end.

(** [d[k] = v]: overwrite in place, or append a new key. *)
Fixpoint dict_set (k : pystr) (v : PyVal) (d : pydict) : pydict :=
  match d with
  | [] => [(k, v)]
  | (k', v') :: d' =>
      if bool_decide (k' = k) then (k, v) :: d' else (k', v') :: dict_set k v d'
  end.

(** [d.update(fields)] *)
Definition dict_update (fields d : pydict) : pydict :=
  fold_left (fun acc kv => dict_set kv.1 kv.2 acc) fields d.

(** [x.get(k, default)]; only dicts have a [get] method. *)
Definition py_get (x : PyVal) (k : pystr) (dflt : PyVal) : outcome PyVal :=
  match x with
  | VDict d => Ret (default dflt (dict_lookup k d))
  | _ => Raise (AttributeError x)
  end.

(** Truth value of an object, as [if x] / [not x] test it. *)
Definition py_truthy (x : PyVal) : bool :=
  match x with
  | VNone => false
  | VBool b => b
  | VInt z => negb (z =? 0)
  | VStr s => negb (bool_decide (s = []))
  | VTime _ => true
  | VList l => match l with [] => false | _ => true end
  | VDict d => match d with [] => false | _ => true end
  end.

(** [x == n] for an int literal [n]; [bool] is a subclass of [int]. *)
Definition py_eq_int (x : PyVal) (n : Z) : bool :=
  match x with
  | VInt z => z =? n
  | VBool b => Z.b2z b =? n
  | _ => false
  end.

(** [x > n] and [x >= n] for an int literal [n]; unordered types raise. *)
Definition py_gt_int (x : PyVal) (n : Z) : outcome bool :=
  match x with
  | VInt z => Ret (n <? z)
  | VBool b => Ret (n <? Z.b2z b)
  | _ => Raise (TypeError x)
  end.

Definition py_ge_int (x : PyVal) (n : Z) : outcome bool :=
  match x with
  | VInt z => Ret (n <=? z)
  | VBool b => Ret (n <=? Z.b2z b)
  | _ => Raise (TypeError x)
  end.

(** [for a in x]: lists yield their items, dicts their keys, strings
    their characters; nothing else is iterable. *)
Definition py_iter (x : PyVal) : outcome (list PyVal) :=
  match x with
  | VList l => Ret l
  | VDict d => Ret (map (fun kv => VStr kv.1) d)
  | VStr s => Ret (map (fun c => VStr [c]) s)
  | _ => Raise (TypeError x)
  end.

(** ** The platform

    What the service takes from the Python runtime and from modules of
    the application that are configuration rather than behaviour: the
    Unicode digit table behind [str.isdigit], [str()] of a value and of
    an exception, the two renderings of a clock reading, and
    [app.config.lawyers.format_lawyer_phone_for_whatsapp]. *)

Record Platform : Type := {
  unicode_isdigit : N -> bool;
  py_str : PyVal -> pystr;
  exn_str : exn -> pystr;
  isoformat : nat -> pystr;
  strftime : nat -> pystr;
  format_lawyer_phone_for_whatsapp : PyVal -> outcome pystr
}.

(** The four fields read off the answers. *)
Record LeadInfo : Type := {
  lead_name : PyVal;
  lead_phone : PyVal;
  area : PyVal;
  situation : PyVal
}.

Section Extraction.
Variable pf : Platform.

(** [s.isdigit()]: true on a non-empty string of digits. *)
Definition str_isdigit (s : pystr) : bool :=
  negb (bool_decide (s = [])) && forallb (unicode_isdigit pf) s.

(** [x.isdigit()]: only a [str] has the method. *)
Definition py_isdigit (x : PyVal) : outcome bool :=
  match x with
  | VStr s => Ret (str_isdigit s)
  | _ => Raise (AttributeError x)
  end.

(** Lines 68-71: the placeholders the fields start from. *)
Definition placeholders : LeadInfo :=
  {| lead_name := VStr (py "Cliente não identificado");
     lead_phone := VStr (py "Não informado");
     area := VStr (py "Não informada");
     situation := VStr (py "Não detalhada") |}.

(** Lines 75-85: the body of the loop over the answers. *)
Definition parse_answer (acc : LeadInfo) (answer : PyVal) : outcome LeadInfo :=
  answer_id ← py_get answer (py "id") (VInt 0);
  answer_text ← py_get answer (py "answer") (VStr []);
  if py_eq_int answer_id 1 then
    Ret {| lead_name := answer_text; lead_phone := lead_phone acc;
           area := area acc; situation := situation acc |}
  else if py_eq_int answer_id 2 then
    Ret {| lead_name := lead_name acc; lead_phone := lead_phone acc;
           area := answer_text; situation := situation acc |}
  else if py_eq_int answer_id 3 then
    Ret {| lead_name := lead_name acc; lead_phone := lead_phone acc;
           area := area acc; situation := answer_text |}
  else
    ge ← py_ge_int answer_id 4;
    if ge : bool then
      digits ← py_isdigit answer_text;
      if digits : bool then
        Ret {| lead_name := lead_name acc; lead_phone := answer_text;
               area := area acc; situation := situation acc |}
      else Ret acc
    else Ret acc.

(** Line 74: [for answer in answers]. *)
Fixpoint parse_answers (acc : LeadInfo) (answers : list PyVal) : outcome LeadInfo :=
  match answers with
  | [] => Ret acc
  | answer :: rest => acc' ← parse_answer acc answer; parse_answers acc' rest
  end.

(** Lines 66-85: the extraction of the lead information. *)
Definition extract_lead_info (lead_data : PyVal) : outcome LeadInfo :=
  answers ← py_get lead_data (py "answers") (VList []);
  items ← py_iter answers;
  parse_answers placeholders items.

End Extraction.

(** ** The world

    The collaborators are outside the service; each call into one of
    them may fail, and which calls fail is part of the world the service
    runs in. *)

Inductive level : Type := INFO | WARNING | ERROR.

Inductive store_call : Type :=
  | DocGet (lead_id : pystr)
  | DocUpdate (lead_id : pystr) (fields : pydict).

Record Collaborators : Type := {
  (** [os.environ] *)
  environ : pystr -> option pystr;
  (** [get_firestore_client()] raising instead of returning a client *)
  firestore_client : option exn;
  (** the n-th call into the store raising instead of completing *)
  store_fault : nat -> store_call -> option exn;
  (** [get_lawyers_for_notification()] *)
  lawyers_for_notification : outcome (list pydict);
  (** [baileys_service.send_whatsapp_message], at the n-th attempt *)
  send_whatsapp_message : nat -> pystr -> pystr -> outcome bool
}.

Record World : Type := {
  collab : Collaborators;
  (** the [leads] collection *)
  leads : gmap pystr pydict;
  (** every read and write of the store, oldest first *)
  store_calls : list store_call;
  (** every message handed to the messaging client, oldest first *)
  sent : list (pystr * pystr);
  clock : nat;
  logs : list (level * pystr)
}.

Definition log_entry (lv : level) (msg : pystr) (w : World) : World :=
  {| collab := collab w; leads := leads w; store_calls := store_calls w;
     sent := sent w; clock := clock w; logs := logs w ++ [(lv, msg)] |}.

Definition store_read (lead_id : pystr) (w : World) : World :=
  {| collab := collab w; leads := leads w;
     store_calls := store_calls w ++ [DocGet lead_id];
     sent := sent w; clock := clock w; logs := logs w |}.

(** Modelled from the spec: the persistent store is Firestore behind
    [app.services.firebase_service], which is not part of these sources.
    [get_record(id)] answers the record or its absence, and
    [update_record(id, fields)] overwrites the given fields of the record
    and leaves the others, or fails; as with Firestore's [update], a
    document that does not exist cannot be updated. *)
Definition store_get (lead_id : pystr) (w : World) : outcome (option pydict) * World :=
  match store_fault (collab w) (length (store_calls w)) (DocGet lead_id) with
  | Some e => (Raise e, store_read lead_id w)
  | None => (Ret (leads w !! lead_id), store_read lead_id w)
  end.

(** What the next update of [lead_id] does: the record it leaves, or
    the error of the store. *)
Definition update_outcome (lead_id : pystr) (fields : pydict) (w : World)
  : outcome pydict :=
  match store_fault (collab w) (length (store_calls w)) (DocUpdate lead_id fields) with
  | Some e => Raise e
  | None =>
      match leads w !! lead_id with
      | None => Raise (NotFound lead_id)
      | Some record => Ret (dict_update fields record)
      end
  end.

Definition store_update (lead_id : pystr) (fields : pydict) (w : World)
  : outcome unit * World :=
  let calls' := store_calls w ++ [DocUpdate lead_id fields] in
  match update_outcome lead_id fields w with
  | Raise e =>
      (Raise e, {| collab := collab w; leads := leads w; store_calls := calls';
                   sent := sent w; clock := clock w; logs := logs w |})
  | Ret record' =>
      (Ret tt, {| collab := collab w; leads := <[lead_id := record']> (leads w);
                  store_calls := calls';
                  sent := sent w; clock := clock w; logs := logs w |})
  end.

(** ** Computations: state of the world and exceptions *)

Definition M (A : Type) : Type := World -> outcome A * World.

#[export] Instance M_ret : MRet M := fun A a w => (Ret a, w).
#[export] Instance M_bind : MBind M := fun A B f m w =>
  match m w with
  | (Ret a, w') => f a w'
  | (Raise e, w') => (Raise e, w')
  end.

(** [try: body except Exception as e: handler] *)
Definition try_except {A : Type} (body : M A) (handler : exn -> M A) : M A :=
  fun w =>
    match body w with
    | (Ret a, w') => (Ret a, w')
    | (Raise e, w') => handler e w'
    end.

Definition lift {A : Type} (o : outcome A) : M A := fun w => (o, w).

(** [os.getenv(name, default)] *)
Definition os_getenv (name dflt : pystr) : M pystr :=
  fun w => (Ret (default dflt (environ (collab w) name)), w).

(** [logger.info], [logger.warning], [logger.error] *)
Definition logger (lv : level) (msg : pystr) : M unit :=
  fun w => (Ret tt, log_entry lv msg w).

(** [datetime.now(...)]: a reading of the clock, which then moves on. *)
Definition datetime_now : M nat :=
  fun w => (Ret (clock w), {| collab := collab w; leads := leads w;
                              store_calls := store_calls w; sent := sent w;
                              clock := S (clock w); logs := logs w |}).

Definition get_firestore_client : M unit :=
  fun w => match firestore_client (collab w) with
           | Some e => (Raise e, w)
           | None => (Ret tt, w)
           end.

Definition get_lawyers_for_notification : M (list pydict) :=
  fun w => (lawyers_for_notification (collab w), w).

(** [await baileys_service.send_whatsapp_message(number, message)]; the
    attempt is on record whether or not the client accepts it. *)
Definition baileys_send (number message : pystr) : M bool :=
  fun w => (send_whatsapp_message (collab w) (length (sent w)) number message,
            {| collab := collab w; leads := leads w;
               store_calls := store_calls w;
               sent := sent w ++ [(number, message)];
               clock := clock w; logs := logs w |}).

(** ** The service *)

Section Service.
Variable pf : Platform.

Definition nl : pystr := [10%N].

(** [f"{x}"]: a [str] is inserted as it is, another value through
    [str()]. *)
Definition fmt (x : PyVal) : pystr :=
  match x with
  | VStr s => s
  | _ => py_str pf x
  end.

(** Line 150: [{situation[:200]}{'...' if len(situation) > 200 else ''}];
    strings and lists can be sliced and measured, nothing else. *)
Definition situation_excerpt (situation : PyVal) : outcome pystr :=
  match situation with
  | VStr s =>
      Ret (take 200 s ++ (if (200 <? length s)%nat then py "..." else []))
  | VList l =>
      Ret (fmt (VList (take 200 l))
           ++ (if (200 <? length l)%nat then py "..." else []))
  | _ => Raise (TypeError situation)
  end.

(** Lines 145-149: the message up to the situation. *)
Definition message_head (lead_name lead_phone area : PyVal) : pystr :=
  py "🚨 *Novo Cliente Recebido!*" ++ nl ++ nl
  ++ py "👤 *Nome:* " ++ fmt lead_name ++ nl
  ++ py "📞 *Telefone:* " ++ fmt lead_phone ++ nl
  ++ py "⚖️ *Área:* " ++ fmt area ++ nl
  ++ py "📝 *Situação:* ".

(** Lines 151-155: the message after the situation; [t] is the clock
    reading of [datetime.now()]. *)
Definition message_tail (lead_id : pystr) (t : nat) : pystr :=
  nl ++ nl
  ++ py "🆔 *Lead ID:* " ++ lead_id ++ nl
  ++ py "⏰ *Recebido em:* " ++ strftime pf t ++ nl ++ nl
  ++ py "_Mensagem enviada automaticamente pelo sistema de captação de leads._".

(** Lines 145-155: the notification message. *)
Definition notification_message
    (lead_id : pystr) (lead_name lead_phone area situation : PyVal) : M pystr :=
  excerpt ← lift (situation_excerpt situation);
  t ← datetime_now;
  mret (message_head lead_name lead_phone area ++ excerpt ++ message_tail lead_id t).

(** Lines 158-196: the body of the loop over the lawyers; [acc] holds
    [results] and [successful_notifications]. *)
Definition notify_lawyer (message : pystr) (acc : list PyVal * Z) (lawyer : pydict)
  : M (list PyVal * Z) :=
  try_except
    (let lawyer_name := default (VStr (py "Advogado")) (dict_lookup (py "name") lawyer) in
     let lawyer_phone := default (VStr []) (dict_lookup (py "phone") lawyer) in
     if negb (py_truthy lawyer_phone) then
       logger WARNING (py "⚠️ No phone number for lawyer " ++ fmt lawyer_name);;
       mret acc
     else
       whatsapp_number ← lift (format_lawyer_phone_for_whatsapp pf lawyer_phone);
       success ← baileys_send whatsapp_number message;
       t ← datetime_now;
       let results := acc.1 ++ [VDict [(py "lawyer", lawyer_name);
                                       (py "phone", lawyer_phone);
                                       (py "success", VBool success);
                                       (py "timestamp", VStr (isoformat pf t))]] in
       if success : bool then
         logger INFO (py "✅ Notification sent to " ++ fmt lawyer_name);;
         mret (results, acc.2 + 1)
       else
         logger ERROR (py "❌ Failed to send notification to " ++ fmt lawyer_name);;
         mret (results, acc.2))
    (fun lawyer_error =>
       logger ERROR (py "❌ Error sending notification to "
                     ++ fmt (default (VStr (py "Unknown")) (dict_lookup (py "name") lawyer))
                     ++ py ": " ++ exn_str pf lawyer_error);;
       t ← datetime_now;
       mret (acc.1 ++ [VDict [(py "lawyer",
                                default (VStr (py "Unknown")) (dict_lookup (py "name") lawyer));
                              (py "phone",
                                default (VStr (py "Unknown")) (dict_lookup (py "phone") lawyer));
                              (py "success", VBool false);
                              (py "error", VStr (exn_str pf lawyer_error));
                              (py "timestamp", VStr (isoformat pf t))]],
             acc.2)).

(** Line 157: [for lawyer in lawyers]. *)
Fixpoint notify_lawyers (message : pystr) (acc : list PyVal * Z) (lawyers : list pydict)
  : M (list PyVal * Z) :=
  match lawyers with
  | [] => mret acc
  | lawyer :: rest =>
      acc' ← notify_lawyer message acc lawyer;
      notify_lawyers message acc' rest
  end.

(** Lines 119-213. *)
Definition _send_notifications_to_lawyers
    (lead_id : pystr) (lead_name lead_phone area situation : PyVal) : M PyVal :=
  try_except
    (lawyers ← get_lawyers_for_notification;
     message ← notification_message lead_id lead_name lead_phone area situation;
     acc ← notify_lawyers message ([], 0) lawyers;
     t ← datetime_now;
     mret (VDict [(py "success", VBool (0 <? acc.2));
                  (py "notifications_sent", VInt acc.2);
                  (py "total_lawyers", VInt (Z.of_nat (length lawyers)));
                  (py "results", VList acc.1);
                  (py "lead_id", VStr lead_id);
                  (py "timestamp", VStr (isoformat pf t))]))
    (fun e =>
       logger ERROR (py "❌ Error sending notifications to lawyers: " ++ exn_str pf e);;
       mret (VDict [(py "success", VBool false);
                    (py "notifications_sent", VInt 0);
                    (py "error", VStr (exn_str pf e))])).

(** Lines 94-105: mark the lead as notified if at least one
    notification went out; a failure of the update is logged and goes no
    further. *)
Definition mark_as_notified (lead_id : pystr) (notification_result : PyVal) : M unit :=
  notifications_sent ←
    lift (py_get notification_result (py "notifications_sent") (VInt 0));
  delivered ← lift (py_gt_int notifications_sent 0);
  if delivered : bool then
    try_except
      (notified_at ← datetime_now;
       updated_at ← datetime_now;
       store_update lead_id
         [(py "was_notified", VBool true);
          (py "notified_at", VTime notified_at);
          (py "notification_result", notification_result);
          (py "updated_at", VTime updated_at)];;
       logger INFO (py "✅ Lead " ++ lead_id ++ py " marked as notified"))
      (fun update_error =>
         logger ERROR (py "❌ Error updating notification status: "
                       ++ exn_str pf update_error))
  else mret tt.

(** Lines 20-116. *)
Definition send_new_lead_notification (lead_id : pystr) (lead_data : PyVal) : M PyVal :=
  try_except
    (flag ← os_getenv (py "ENABLE_WHATSAPP") (py "false");
     let whatsapp_enabled := bool_decide (lower flag = py "true") in
     if negb whatsapp_enabled then
       logger INFO (py "📵 WhatsApp notifications disabled (ENABLE_WHATSAPP=false) for lead "
                    ++ lead_id);;
       mret (VDict [(py "success", VBool false);
                    (py "reason", VStr (py "whatsapp_disabled"));
                    (py "message",
                      VStr (py "WhatsApp notifications are disabled via environment variable"))])
     else
       get_firestore_client;;
       lead_doc ← store_get lead_id;
       match lead_doc with
       | None =>
           logger ERROR (py "❌ Lead " ++ lead_id ++ py " not found in database");;
           mret (VDict [(py "success", VBool false);
                        (py "reason", VStr (py "lead_not_found"));
                        (py "message", VStr (py "Lead " ++ lead_id ++ py " not found"))])
       | Some lead_record =>
           if py_truthy (default (VBool false) (dict_lookup (py "was_notified") lead_record))
           then
             logger INFO (py "📵 Lead " ++ lead_id
                          ++ py " already notified, skipping duplicate notification");;
             mret (VDict [(py "success", VBool false);
                          (py "reason", VStr (py "already_notified"));
                          (py "message",
                            VStr (py "Lead " ++ lead_id ++ py " was already notified"))])
           else
             info ← lift (extract_lead_info pf lead_data);
             logger INFO (py "📨 Sending WhatsApp notification for new lead: "
                          ++ fmt (lead_name info) ++ py " (" ++ fmt (area info) ++ py ")");;
             notification_result ←
               _send_notifications_to_lawyers lead_id (lead_name info) (lead_phone info)
                                              (area info) (situation info);
             mark_as_notified lead_id notification_result;;
             mret notification_result
       end)
    (fun e =>
       logger ERROR (py "❌ Error in send_new_lead_notification: " ++ exn_str pf e);;
       mret (VDict [(py "success", VBool false);
                    (py "reason", VStr (py "error"));
                    (py "message", VStr (exn_str pf e));
                    (py "notifications_sent", VInt 0)])).

(** Lines 216-253. *)
Definition check_notification_status (lead_id : pystr) : M PyVal :=
  try_except
    (get_firestore_client;;
     lead_doc ← store_get lead_id;
     match lead_doc with
     | None =>
         mret (VDict [(py "exists", VBool false);
                      (py "was_notified", VBool false);
                      (py "message", VStr (py "Lead not found"))])
     | Some lead_data =>
         mret (VDict [(py "exists", VBool true);
                      (py "was_notified",
                        default (VBool false) (dict_lookup (py "was_notified") lead_data));
                      (py "notified_at",
                        default VNone (dict_lookup (py "notified_at") lead_data));
                      (py "notification_result",
                        default (VDict []) (dict_lookup (py "notification_result") lead_data));
                      (py "lead_id", VStr lead_id)])
     end)
    (fun e =>
       logger ERROR (py "❌ Error checking notification status: " ++ exn_str pf e);;
       mret (VDict [(py "exists", VBool false);
                    (py "was_notified", VBool false);
                    (py "error", VStr (exn_str pf e))])).

(** Lines 256-282. *)
Definition reset_notification_status (lead_id : pystr) : M bool :=
  try_except
    (get_firestore_client;;
     updated_at ← datetime_now;
     store_update lead_id
       [(py "was_notified", VBool false);
        (py "notified_at", VNone);
        (py "notification_result", VNone);
        (py "updated_at", VTime updated_at)];;
     logger INFO (py "🔄 Reset notification status for lead " ++ lead_id);;
     mret true)
    (fun e =>
       logger ERROR (py "❌ Error resetting notification status: " ++ exn_str pf e);;
       mret false).

End Service.

(** ** A concrete deployment

    A platform and worlds to run the service on: ASCII digits, the
    Baileys address suffix, two lawyers of which the second cannot be
    reached, and the lead of the specification's example. *)

Module Fixture.

Definition ascii_isdigit (c : N) : bool := ((48 <=? c) && (c <=? 57))%N.

Definition platform : Platform :=
  {| unicode_isdigit := ascii_isdigit;
     py_str := fun _ => py "<object>";
     exn_str := fun e =>
       match e with
       | AttributeError _ => py "AttributeError"
       | TypeError _ => py "TypeError"
       | NotFound document => py "NotFound: " ++ document
       | External msg => msg
       end;
     isoformat := fun t => py "T+" ++ repeat 49%N t;
     strftime := fun t => py "T+" ++ repeat 49%N t;
     format_lawyer_phone_for_whatsapp := fun phone =>
       match phone with
       | VStr s => Ret (s ++ py "@s.whatsapp.net")
       | _ => Raise (TypeError phone)
       end |}.

Definition lawyers : list pydict :=
  [ [(py "name", VStr (py "Dra. Alice")); (py "phone", VStr (py "5511900000001"))];
    [(py "name", VStr (py "Dr. Bruno")); (py "phone", VStr (py "5511900000002"))] ].

Definition answer (id : Z) (text : String.string) : PyVal :=
  VDict [(py "id", VInt id); (py "answer", VStr (py text))].
Arguments answer id text%_string_scope.

Definition lead_data : PyVal :=
  VDict [(py "answers",
          VList [answer 1 "Ana"; answer 2 "Criminal"; answer 3 "Dispute";
                 answer 4 "11999999999"])].

Definition collaborators (flag : option pystr) : Collaborators :=
  {| environ := fun name =>
       if bool_decide (name = py "ENABLE_WHATSAPP") then flag else None;
     firestore_client := None;
     store_fault := fun _ _ => None;
     lawyers_for_notification := Ret lawyers;
     send_whatsapp_message := fun n _ _ => Ret (bool_decide (n = 0%nat)) |}.

Definition world (flag : option pystr) (store : gmap pystr pydict) : World :=
  {| collab := collaborators flag; leads := store; store_calls := [];
     sent := []; clock := 0; logs := [] |}.

Definition fresh_store : gmap pystr pydict :=
  {[ py "L1" := [(py "was_notified", VBool false)] ]}.

Definition notified_store : gmap pystr pydict :=
  {[ py "L1" := [(py "was_notified", VBool true)] ]}.

Definition enabled_world : World := world (Some (py "true")) fresh_store.

(** The dispatch of the example, and the result it returns. *)
Definition dispatched : outcome PyVal * World :=
  send_new_lead_notification platform (py "L1") lead_data enabled_world.

Definition dispatched_result : PyVal :=
  match dispatched.1 with
  | Ret r => r
  | Raise _ => VNone
  end.

End Fixture.

(** ** Reading worlds and results *)

(** Line 33: the feature flag as the service reads it. *)
Definition flag_enabled (w : World) : bool :=
  bool_decide (lower (default (py "false") (environ (collab w) (py "ENABLE_WHATSAPP")))
               = py "true").

(** The store answers the next read of [lead_id]. *)
Definition store_readable (w : World) (lead_id : pystr) : Prop :=
  firestore_client (collab w) = None
  /\ store_fault (collab w) (length (store_calls w)) (DocGet lead_id) = None.

(** The value of a field of a result, when the result is a record that
    has the field. *)
Definition field (k : pystr) (r : PyVal) : option PyVal :=
  match r with
  | VDict d => dict_lookup k d
  | _ => None
  end.

(** ** Answers as the data model has them

    An answer is a pair of an integer id and a text; the payload of a
    lead carries them, in the order of the questions, as records
    [{id, answer}] under the key [answers]. *)

Definition typed_answer (a : Z * pystr) : PyVal :=
  VDict [(py "id", VInt a.1); (py "answer", VStr a.2)].

Inductive lead_field : Type := Name | Phone | Area | Situation.

(** The convention by which an answer is taken for a field: id 1 is the
    name, id 2 the area, id 3 the situation, and an id of 4 or more with
    a numeric text the phone. *)
Definition rule (pf : Platform) (f : lead_field) (a : Z * pystr) : bool :=
  match f with
  | Name => a.1 =? 1
  | Area => a.1 =? 2
  | Situation => a.1 =? 3
  | Phone => (4 <=? a.1) && str_isdigit pf a.2
  end.

Definition placeholder (f : lead_field) : pystr :=
  match f with
  | Name => py "Cliente não identificado"
  | Phone => py "Não informado"
  | Area => py "Não informada"
  | Situation => py "Não detalhada"
  end.

Definition get_field (f : lead_field) (info : LeadInfo) : PyVal :=
  match f with
  | Name => lead_name info
  | Phone => lead_phone info
  | Area => area info
  | Situation => situation info
  end.

(** The value a field ends with after the answers have been gone
    through in order, starting from [current]: every answer the rule
    takes for the field replaces what was there. *)
Definition settle (pf : Platform) (f : lead_field) (answers : list (Z * pystr))
    (current : PyVal) : PyVal :=
  fold_left (fun cur a => if rule pf f a then VStr a.2 else cur) answers current.

(** The store holds a record of the lead that is not marked as
    notified. *)
Definition fresh_lead (w : World) (lead_id : pystr) : Prop :=
  exists lead_record : pydict,
    leads w !! lead_id = Some lead_record
    /\ py_truthy (default (VBool false) (dict_lookup (py "was_notified") lead_record))
       = false.

(** The world in which the fan-out starts: the lead has been read and
    the dispatch announced in the log (line 87). *)
Definition fanout_start (pf : Platform) (lead_id : pystr) (info : LeadInfo) (w : World)
  : World :=
  log_entry INFO
    (py "📨 Sending WhatsApp notification for new lead: "
     ++ fmt pf (lead_name info) ++ py " (" ++ fmt pf (area info) ++ py ")")
    (store_read lead_id w).

(** What a computation that stays out of the store leaves as it was:
    the collaborators, the stored leads and the trace of store calls;
    the clock only moves forward. *)
Definition steady (w w' : World) : Prop :=
  collab w' = collab w
  /\ leads w' = leads w
  /\ store_calls w' = store_calls w
  /\ (clock w <= clock w')%nat.

(** Everything handed to the messaging client between [w] and [w'] is
    the text [message]. *)
Definition sends_only (message : pystr) (w w' : World) : Prop :=
  exists numbers : list pystr,
    sent w' = sent w ++ map (fun number => (number, message)) numbers.

(** The number of entries of [results] that report a delivery. *)
Fixpoint successes (results : list PyVal) : Z :=
  match results with
  | [] => 0
  | entry :: rest =>
      match field (py "success") entry with
      | Some (VBool true) => 1 + successes rest
      | _ => successes rest
      end
  end.

(** Lines 198-205: the record a completed fan-out returns. *)
Definition fanout_record
    (lead_id : pystr) (n : Z) (total : nat) (results : list PyVal) (ts : pystr) : PyVal :=
  VDict [(py "success", VBool (0 <? n));
         (py "notifications_sent", VInt n);
         (py "total_lawyers", VInt (Z.of_nat total));
         (py "results", VList results);
         (py "lead_id", VStr lead_id);
         (py "timestamp", VStr ts)].

(** Lines 209-213: the record a fan-out that broke down returns. *)
Definition fanout_failure (msg : pystr) : PyVal :=
  VDict [(py "success", VBool false);
         (py "notifications_sent", VInt 0);
         (py "error", VStr msg)].

(** Lines 97-102: the fields the commit writes; the two clock readings
    follow one another. *)
Definition notified_fields (t : nat) (notification_result : PyVal) : pydict :=
  [(py "was_notified", VBool true);
   (py "notified_at", VTime t);
   (py "notification_result", notification_result);
   (py "updated_at", VTime (S t))].

(** What a computation returned, when it returned. *)
Definition returned (x : outcome PyVal * World) : PyVal :=
  match x.1 with
  | Ret r => r
  | Raise _ => VNone
  end.

(** ** Counting lawyers *)

Fixpoint count_if {A : Type} (p : A -> bool) (xs : list A) : nat :=
  match xs with
  | [] => 0%nat
  | x :: rest => if p x then S (count_if p rest) else count_if p rest
  end.

(** Line 162: the lawyer has a phone on record. *)
Definition has_phone (lawyer : pydict) : bool :=
  py_truthy (default (VStr []) (dict_lookup (py "phone") lawyer)).

(** Lines 162-167: the lawyer has a phone and it can be turned into a
    WhatsApp address. *)
Definition addressable (pf : Platform) (lawyer : pydict) : bool :=
  has_phone lawyer
  && match format_lawyer_phone_for_whatsapp pf
             (default (VStr []) (dict_lookup (py "phone") lawyer)) with
     | Ret _ => true
     | Raise _ => false
     end.

(** ** Further deployments *)

Module Scenario.

(** The deployment of [Fixture] with a messaging client of one's own
    and a lawyers configuration of one's own. *)
Definition world_with
    (client : nat -> pystr -> pystr -> outcome bool)
    (lawyers : outcome (list pydict)) (store : gmap pystr pydict) : World :=
  {| collab :=
       {| environ := environ (Fixture.collaborators (Some (py "true")));
          firestore_client := None;
          store_fault := fun _ _ => None;
          lawyers_for_notification := lawyers;
          send_whatsapp_message := client |};
     leads := store; store_calls := []; sent := []; clock := 0; logs := [] |}.

(** The client declines every message. *)
Definition declining_world : World :=
  world_with (fun _ _ _ => Ret false) (Ret Fixture.lawyers) Fixture.fresh_store.

(** The client breaks down on the first message and accepts the second. *)
Definition faltering_world : World :=
  world_with (fun n _ _ => if bool_decide (n = 0%nat)
                           then Raise (External (py "connection closed"))
                           else Ret true)
    (Ret Fixture.lawyers) Fixture.fresh_store.

(** The lawyers cannot be listed. *)
Definition unconfigured_world : World :=
  world_with (fun _ _ _ => Ret true) (Raise (External (py "no lawyers configured")))
    Fixture.fresh_store.

(** Three lawyers: one without a phone, one whose phone is not a
    string, one in order. *)
Definition mixed_lawyers : list pydict :=
  [ [(py "name", VStr (py "Dra. Alice"))];
    [(py "name", VStr (py "Dr. Bruno")); (py "phone", VInt 5511900000002)];
    [(py "name", VStr (py "Dra. Carla")); (py "phone", VStr (py "5511900000003"))] ].

Definition mixed_world : World :=
  world_with (fun _ _ _ => Ret true) (Ret mixed_lawyers) Fixture.fresh_store.

(** The store is out of order: every call into it raises. *)
Definition broken_store_world : World :=
  {| collab :=
       {| environ := environ (Fixture.collaborators (Some (py "true")));
          firestore_client := None;
          store_fault := fun _ _ => Some (External (py "deadline exceeded"));
          lawyers_for_notification := Ret Fixture.lawyers;
          send_whatsapp_message := fun _ _ _ => Ret true |};
     leads := Fixture.notified_store; store_calls := []; sent := []; clock := 0;
     logs := [] |}.

End Scenario.

(** ** More of Python strings *)

Fixpoint starts_with (p s : pystr) : bool :=
  match p, s with
  | [], _ => true
  | _ :: _, [] => false
  | c :: p', d :: s' => bool_decide (c = d) && starts_with p' s'
  end.

(** [s.replace(old, new)] for a non-empty [old]: the occurrences of
    [old] are replaced from left to right, without overlap; [skip] is
    what is left to pass over of the occurrence just replaced. *)
Fixpoint replace_from (old new : pystr) (skip : nat) (s : pystr) : pystr :=
  match s with
  | [] => []
  | c :: s' =>
      match skip with
      | S k => replace_from old new k s'
      | O =>
          if starts_with old s
          then new ++ replace_from old new (length old - 1) s'
          else c :: replace_from old new 0 s'
      end
  end.

Definition str_replace (old new s : pystr) : pystr := replace_from old new 0 s.

(** [x.replace(old, new)] with two strings: a [str] method; the
    [replace] of a [datetime] takes no strings, and nothing else has the
    method. *)
Definition py_replace (x : PyVal) (old new : pystr) : outcome pystr :=
  match x with
  | VStr s => Ret (str_replace old new s)
  | VTime _ => Raise (TypeError x)
  | _ => Raise (AttributeError x)
  end.

(** The code points [str.isspace] holds of, which [strip()] removes. *)
Definition is_space (c : N) : bool :=
  (((9 <=? c) && (c <=? 13)) || ((28 <=? c) && (c <=? 32))
   || (c =? 133) || (c =? 160) || (c =? 5760)
   || ((8192 <=? c) && (c <=? 8202))
   || (c =? 8232) || (c =? 8233) || (c =? 8239) || (c =? 8287) || (c =? 12288))%N.

Fixpoint lstrip (s : pystr) : pystr :=
  match s with
  | [] => []
  | c :: s' => if is_space c then lstrip s' else s
  end.

(** [s.strip()] *)
Definition strip (s : pystr) : pystr := rev (lstrip (rev (lstrip s))).

(** ** The routes

    [app/routes/whatsapp.py].  A route either returns a body or raises;
    besides the exceptions of the service a route can raise an
    [HTTPException], and a name that the module does not define raises a
    [NameError]. *)

Inductive route_exn : Type :=
  | PyExn (e : exn)
  | NameError (name : pystr)
  | HTTPException (status_code : Z) (detail : pystr).

Inductive raised (A : Type) : Type :=
  | Done (a : A)
  | Thrown (e : route_exn).
Arguments Done {A} a.
Arguments Thrown {A} e.

Definition R (A : Type) : Type := World -> raised A * World.

#[export] Instance R_ret : MRet R := fun A a w => (Done a, w).
#[export] Instance R_bind : MBind R := fun A B f m w =>
  match m w with
  | (Done a, w') => f a w'
  | (Thrown e, w') => (Thrown e, w')
  end.

(** A call into the service or into a collaborator. *)
Definition call {A : Type} (m : M A) : R A :=
  fun w =>
    match m w with
    | (Ret a, w') => (Done a, w')
    | (Raise e, w') => (Thrown (PyExn e), w')
    end.

(** [raise e] *)
Definition throw {A : Type} (e : route_exn) : R A := fun w => (Thrown e, w).

(** [try: body except Exception as e: handler] *)
Definition route_try {A : Type} (body : R A) (handler : route_exn -> R A) : R A :=
  fun w =>
    match body w with
    | (Done a, w') => (Done a, w')
    | (Thrown e, w') => handler e w'
    end.

(** The services the routes call into that are not part of these
    sources, and [str()] of an [HTTPException], which is Starlette's. *)
Record Backend : Type := {
  (** [intelligent_orchestrator.process_message(message_text,
      session_id, phone_number=phone_number, platform="whatsapp")] *)
  process_message : PyVal -> PyVal -> PyVal -> M PyVal;
  (** [firebase_service.save_lead_data(lead_data)] *)
  save_lead_data : PyVal -> M pystr;
  (** [baileys_service.start_whatsapp_service()] *)
  baileys_start : M bool;
  (** [get_baileys_status()] *)
  get_baileys_status : M PyVal;
  http_exception_str : Z -> pystr -> pystr
}.

Module Routes.
Section Routes.
Variable pf : Platform.
Variable bk : Backend.

(** [str(e)] in the handlers of the routes; the text of a [NameError]
    is CPython's. *)
Definition route_exn_str (e : route_exn) : pystr :=
  match e with
  | PyExn e => exn_str pf e
  | NameError name => py "name '" ++ name ++ py "' is not defined"
  | HTTPException status_code detail => http_exception_str bk status_code detail
  end.

(** Modelled from the spec: [send_baileys_message] of
    [app.services.baileys_service], which is not part of these sources,
    is the messaging client, [send_message(address, text) -> bool]. *)
Definition send_baileys_message (phone_number message : pystr) : M bool :=
  baileys_send phone_number message.

(** [f"{x[:k]}"]: strings and lists can be sliced, nothing else. *)
Definition py_head (x : PyVal) (k : nat) : outcome pystr :=
  match x with
  | VStr s => Ret (take k s)
  | VList l => Ret (fmt pf (VList (take k l)))
  | _ => Raise (TypeError x)
  end.

Definition HTTP_500_INTERNAL_SERVER_ERROR : Z := 500.

(** Lines 28-91; [request_json] is what [await request.json()] gives or
    raises.  The text of line 63 is built and goes to [logger.debug],
    below the levels the log of the world keeps. *)
Definition whatsapp_webhook (request_json : outcome PyVal) : R PyVal :=
  route_try
    (payload ← call (lift request_json);
     call (logger INFO (py "📨 Received WhatsApp webhook: " ++ fmt pf payload));;
     message_text ← call (lift (py_get payload (py "message") (VStr [])));
     phone_number ← call (lift (py_get payload (py "from") (VStr [])));
     message_id ← call (lift (py_get payload (py "messageId") (VStr [])));
     bare_number ← call (lift (py_replace phone_number (py "@s.whatsapp.net") []));
     session_id ←
       call (lift (py_get payload (py "sessionId") (VStr (py "whatsapp_" ++ bare_number))));
     if negb (py_truthy message_text) || negb (py_truthy phone_number) then
       call (logger WARNING
               (py "⚠️ Invalid webhook payload - missing message or phone number"));;
       mret (VDict [(py "status", VStr (py "error"));
                    (py "message", VStr (py "Invalid payload"))])
     else
       head ← call (lift (py_head message_text 50));
       call (logger INFO (py "🎯 Processing WhatsApp message from " ++ fmt pf phone_number
                          ++ py ": " ++ head ++ py "..."));;
       response ← call (process_message bk message_text session_id phone_number);
       ai_response ← call (lift (py_get response (py "response") (VStr [])));
       if py_truthy ai_response then
         call (logger INFO (py "🤖 Sending AI response to " ++ fmt pf phone_number));;
         _ ← call (lift (py_head ai_response 100));
         response_type ←
           call (lift (py_get response (py "response_type") (VStr (py "ai_whatsapp"))));
         message_count ← call (lift (py_get response (py "message_count") (VInt 1)));
         mret (VDict [(py "status", VStr (py "success"));
                      (py "message_id", message_id);
                      (py "session_id", session_id);
                      (py "response", ai_response);
                      (py "response_type", response_type);
                      (py "message_count", message_count)])
       else
         call (logger WARNING (py "⚠️ No AI response generated"));;
         mret (VDict [(py "status", VStr (py "success"));
                      (py "message_id", message_id);
                      (py "session_id", session_id);
                      (py "response",
                        VStr (py "Obrigado pela sua mensagem. Nossa equipe entrará em contato em breve."));
                      (py "response_type", VStr (py "fallback"))]))
    (fun e =>
       call (logger ERROR (py "❌ Error processing WhatsApp webhook: " ++ route_exn_str e));;
       mret (VDict [(py "status", VStr (py "error"));
                    (py "message", VStr (route_exn_str e));
                    (py "response",
                      VStr (py "Desculpe, ocorreu um erro interno. Nossa equipe foi notificada e entrará em contato em breve."))])).

(** Lines 94-119. *)
Definition send_whatsapp_message (phone_number message : pystr) : R PyVal :=
  route_try
    (call (logger INFO (py "📤 Sending WhatsApp message to " ++ phone_number));;
     success ← call (send_baileys_message phone_number message);
     if success : bool then
       mret (VDict [(py "status", VStr (py "success"));
                    (py "message", VStr (py "WhatsApp message sent successfully"));
                    (py "to", VStr phone_number)])
     else
       throw (HTTPException HTTP_500_INTERNAL_SERVER_ERROR
                (py "Failed to send WhatsApp message")))
    (fun e =>
       call (logger ERROR (py "❌ Error sending WhatsApp message: " ++ route_exn_str e));;
       throw (HTTPException HTTP_500_INTERNAL_SERVER_ERROR
                (py "WhatsApp message sending error"))).

(** Lines 122-148. *)
Definition start_whatsapp_service : R PyVal :=
  route_try
    (call (logger INFO (py "🚀 Starting Baileys WhatsApp service"));;
     success ← call (baileys_start bk);
     if success : bool then
       mret (VDict [(py "status", VStr (py "success"));
                    (py "message", VStr (py "Baileys WhatsApp service started successfully"));
                    (py "note", VStr (py "Check console for QR code if first time setup"))])
     else
       throw (HTTPException HTTP_500_INTERNAL_SERVER_ERROR
                (py "Failed to start WhatsApp service")))
    (fun e =>
       call (logger ERROR (py "❌ Error starting WhatsApp service: " ++ route_exn_str e));;
       throw (HTTPException HTTP_500_INTERNAL_SERVER_ERROR
                (py "WhatsApp service start error"))).

(** Lines 151-166. *)
Definition whatsapp_status : R PyVal :=
  route_try
    (call (get_baileys_status bk))
    (fun e =>
       call (logger ERROR (py "❌ Error getting WhatsApp status: " ++ route_exn_str e));;
       mret (VDict [(py "service", VStr (py "baileys_whatsapp"));
                    (py "status", VStr (py "error"));
                    (py "error", VStr (route_exn_str e))])).

(** Lines 178-185. *)
Definition test_lead_data : PyVal :=
  VDict [(py "answers",
          VList [VDict [(py "id", VInt 1); (py "answer", VStr (py "João Silva (TESTE)"))];
                 VDict [(py "id", VInt 2); (py "answer", VStr (py "Penal"))];
                 VDict [(py "id", VInt 3);
                        (py "answer",
                          VStr (py "Teste do sistema de notificações sem duplicatas"))];
                 VDict [(py "id", VInt 4); (py "answer", VStr (py "11999999999"))]])].

(** Lines 169-209.  The module imports [logging], [datetime], FastAPI
    and the services, not [os]: evaluating [os.getenv] on line 200
    raises [NameError]. *)
Definition test_lawyer_notifications : R PyVal :=
  route_try
    (call (logger INFO (py "🧪 Testing lawyer notification system"));;
     lead_id ← call (save_lead_data bk test_lead_data);
     status ← call (check_notification_status pf lead_id);
     whatsapp_enabled ← throw (NameError (py "os"));
     mret (VDict [(py "status", VStr (py "success"));
                  (py "message",
                    VStr (py "Test lead created and notification sent (if enabled)"));
                  (py "lead_id", VStr lead_id);
                  (py "notification_status", status);
                  (py "whatsapp_enabled", whatsapp_enabled)]))
    (fun e =>
       call (logger ERROR (py "❌ Error testing lawyer notifications: " ++ route_exn_str e));;
       mret (VDict [(py "status", VStr (py "error"));
                    (py "message", VStr (py "Failed to test lawyer notifications"));
                    (py "error", VStr (route_exn_str e))])).

(** Lines 212-228. *)
Definition check_lead_notification_status (lead_id : pystr) : R PyVal :=
  route_try
    (call (check_notification_status pf lead_id))
    (fun e =>
       call (logger ERROR (py "❌ Error checking notification status: " ++ route_exn_str e));;
       mret (VDict [(py "exists", VBool false);
                    (py "was_notified", VBool false);
                    (py "error", VStr (route_exn_str e))])).

(** Lines 231-251. *)
Definition reset_lead_notification_status (lead_id : pystr) : R PyVal :=
  route_try
    (success ← call (reset_notification_status pf lead_id);
     mret (VDict [(py "success", VBool success);
                  (py "message",
                    VStr (if success : bool
                          then py "Notification status reset for lead " ++ lead_id
                          else py "Failed to reset notification status"));
                  (py "lead_id", VStr lead_id)]))
    (fun e =>
       call (logger ERROR (py "❌ Error resetting notification status: " ++ route_exn_str e));;
       mret (VDict [(py "success", VBool false);
                    (py "error", VStr (route_exn_str e))])).

(** Lines 264-275, before [strip()]; [t] is the clock reading of
    [datetime.now()]. *)
Definition contact_template (session_id user_name : pystr) (t : nat) : pystr :=
  nl
  ++ py "🔔 *Nova Lead do Chatbot AI*" ++ nl ++ nl
  ++ py "👤 *Cliente:* " ++ user_name ++ nl
  ++ py "🆔 *Sessão:* " ++ session_id ++ nl
  ++ py "⏰ *Horário:* " ++ strftime pf t ++ nl
  ++ py "🤖 *Origem:* Conversa inteligente com IA" ++ nl ++ nl
  ++ py "O cliente interagiu com nosso assistente AI e demonstrou interesse em nossos serviços jurídicos."
  ++ nl ++ nl
  ++ py "_Mensagem enviada automaticamente pelo sistema._" ++ nl
  ++ py "        ".

(** Lines 254-298; [user_name] is [None] when the caller leaves it to
    its default. *)
Definition suggest_whatsapp_contact (session_id : pystr) (user_name : option pystr)
  : R PyVal :=
  let user_name := default (py "Cliente") user_name in
  route_try
    (call (logger INFO (py "📲 Suggesting WhatsApp contact for session: " ++ session_id));;
     t ← call datetime_now;
     let notification_message := strip (contact_template session_id user_name t) in
     success ← call (send_baileys_message (py "+5511918368812") notification_message);
     mret (VDict [(py "status",
                    VStr (if success : bool then py "success" else py "partial"));
                  (py "message", VStr (py "WhatsApp contact suggested to user"));
                  (py "notification_sent", VBool success);
                  (py "whatsapp_number", VStr (py "+55 11 91836-8812"));
                  (py "suggestion_text",
                    VStr (py "Olá " ++ user_name
                          ++ py "! Para continuar com seu atendimento personalizado, "
                          ++ py "entre em contato conosco pelo WhatsApp: +55 11 91836-8812. "
                          ++ py "Nossa equipe está pronta para ajudá-lo!"))]))
    (fun e =>
       call (logger ERROR (py "❌ Error suggesting WhatsApp contact: " ++ route_exn_str e));;
       mret (VDict [(py "status", VStr (py "error"));
                    (py "message", VStr (py "Failed to suggest WhatsApp contact"));
                    (py "error", VStr (route_exn_str e))])).

End Routes.
End Routes.

(** Lines 265-274: the message of the contact suggestion as it goes
    out, from the bell to the signature. *)
Definition contact_notice (pf : Platform) (session_id user_name : pystr) (t : nat)
  : pystr :=
  py "🔔 *Nova Lead do Chatbot AI*" ++ nl ++ nl
  ++ py "👤 *Cliente:* " ++ user_name ++ nl
  ++ py "🆔 *Sessão:* " ++ session_id ++ nl
  ++ py "⏰ *Horário:* " ++ strftime pf t ++ nl
  ++ py "🤖 *Origem:* Conversa inteligente com IA" ++ nl ++ nl
  ++ py "O cliente interagiu com nosso assistente AI e demonstrou interesse em nossos serviços jurídicos."
  ++ nl ++ nl
  ++ py "_Mensagem enviada automaticamente pelo sistema._".

(** ** A deployment of the routes *)

Module Office.

(** An orchestrator that answers every message with [reply], a lead
    store that files every lead as [L1], and a Baileys service that does
    not start. *)
Definition backend (reply : PyVal) : Backend :=
  {| process_message := fun _ _ _ w => (Ret reply, w);
     save_lead_data := fun _ w => (Ret (py "L1"), w);
     baileys_start := fun w => (Ret false, w);
     get_baileys_status := fun w => (Ret (VDict [(py "status", VStr (py "connected"))]), w);
     http_exception_str := fun status_code detail => detail |}.

Definition greeting : PyVal :=
  VDict [(py "response", VStr (py "Como posso ajudar?"));
         (py "response_type", VStr (py "ai_whatsapp"))].

Definition payload (sender : PyVal) : pydict :=
  [(py "message", VStr (py "Bom dia")); (py "from", sender);
   (py "messageId", VStr (py "M1"))].

End Office.

(** Unfolding of the sequencing of computations and of the calls into
    the collaborators. *)
Ltac run :=
  unfold try_except, lift, os_getenv, logger, log_entry, datetime_now,
    get_firestore_client, get_lawyers_for_notification, baileys_send,
    store_get, store_read, store_update;
  unfold mbind, mret, M_bind, M_ret, outcome_bind, outcome_ret;
  cbn.

(** * Properties *)

#[local] Arguments message_head : simpl never.
#[local] Arguments message_tail : simpl never.
#[local] Arguments _send_notifications_to_lawyers : simpl never.
#[local] Arguments extract_lead_info : simpl never.
#[local] Arguments mark_as_notified : simpl never.

(** ** The feature gate *)

(** C3, as the code has it: with the feature flag off, the dispatch
    answers [{success: False, reason: "whatsapp_disabled", message: ...}]
    whatever the lead and its payload are; it writes one line to the log
    and nothing else happens: the store is neither read nor written and
    nothing is sent. *)
Theorem disabled_flag_skips_everything
    (pf : Platform) (lead_id : pystr) (lead_data : PyVal) (w : World) :
  flag_enabled w = false ->
  send_new_lead_notification pf lead_id lead_data w
  = (Ret (VDict [(py "success", VBool false);
                 (py "reason", VStr (py "whatsapp_disabled"));
                 (py "message",
                   VStr (py "WhatsApp notifications are disabled via environment variable"))]),
     log_entry INFO
       (py "📵 WhatsApp notifications disabled (ENABLE_WHATSAPP=false) for lead "
        ++ lead_id) w).
Proof.
  intros Hflag. unfold flag_enabled in Hflag.
  unfold send_new_lead_notification. run.
  rewrite Hflag. reflexivity.
Qed.

Lemma disabled_flag_skips_everything_witness :
  send_new_lead_notification Fixture.platform (py "L1") Fixture.lead_data
    (Fixture.world (Some (py "false")) Fixture.fresh_store)
  = (Ret (VDict [(py "success", VBool false);
                 (py "reason", VStr (py "whatsapp_disabled"));
                 (py "message",
                   VStr (py "WhatsApp notifications are disabled via environment variable"))]),
     log_entry INFO
       (py "📵 WhatsApp notifications disabled (ENABLE_WHATSAPP=false) for lead "
        ++ py "L1")
       (Fixture.world (Some (py "false")) Fixture.fresh_store)).
Proof.
  apply (disabled_flag_skips_everything Fixture.platform (py "L1") Fixture.lead_data
           (Fixture.world (Some (py "false")) Fixture.fresh_store)).
  reflexivity.
Defined.

(** C3, as stated: with the flag unset the reason of the result is
    ["whatsapp_disabled"], so it is not the ["disabled"] of the claim. *)
Lemma disabled_reason_is_not_the_stated_one :
  flag_enabled (Fixture.world None Fixture.fresh_store) = false
  /\ exists r w',
       send_new_lead_notification Fixture.platform (py "L1") Fixture.lead_data
         (Fixture.world None Fixture.fresh_store) = (Ret r, w')
       /\ field (py "reason") r = Some (VStr (py "whatsapp_disabled"))
       /\ field (py "reason") r <> Some (VStr (py "disabled")).
Proof.
  split; [reflexivity|].
  eexists _, _. split; [vm_compute; reflexivity|].
  split; [reflexivity|].
  vm_compute. discriminate.
Qed.

(** ** The duplicate guard *)

(** C4, as the code has it: past the feature gate, for a lead the store
    has no record of, the dispatch answers
    [{success: False, reason: "lead_not_found", message: ...}]; the store
    is read once, nothing is sent and nothing is written. *)
Theorem missing_lead_is_reported
    (pf : Platform) (lead_id : pystr) (lead_data : PyVal) (w : World) :
  flag_enabled w = true ->
  store_readable w lead_id ->
  leads w !! lead_id = None ->
  exists w',
    send_new_lead_notification pf lead_id lead_data w
    = (Ret (VDict [(py "success", VBool false);
                   (py "reason", VStr (py "lead_not_found"));
                   (py "message", VStr (py "Lead " ++ lead_id ++ py " not found"))]),
       w')
    /\ sent w' = sent w
    /\ leads w' = leads w
    /\ store_calls w' = store_calls w ++ [DocGet lead_id].
Proof.
  intros Hflag [Hclient Hfault] Hnone. unfold flag_enabled in Hflag.
  unfold send_new_lead_notification. run.
  rewrite Hflag; cbn. rewrite Hclient; cbn. rewrite Hfault; cbn.
  rewrite Hnone; cbn.
  eexists. split; [reflexivity|]. auto.
Qed.

Lemma missing_lead_is_reported_witness :
  exists w',
    send_new_lead_notification Fixture.platform (py "L9") Fixture.lead_data
      (Fixture.world (Some (py "true")) Fixture.fresh_store)
    = (Ret (VDict [(py "success", VBool false);
                   (py "reason", VStr (py "lead_not_found"));
                   (py "message", VStr (py "Lead " ++ py "L9" ++ py " not found"))]),
       w')
    /\ sent w' = sent (Fixture.world (Some (py "true")) Fixture.fresh_store)
    /\ leads w' = leads (Fixture.world (Some (py "true")) Fixture.fresh_store)
    /\ store_calls w'
       = store_calls (Fixture.world (Some (py "true")) Fixture.fresh_store)
         ++ [DocGet (py "L9")].
Proof.
  apply (missing_lead_is_reported Fixture.platform (py "L9") Fixture.lead_data
           (Fixture.world (Some (py "true")) Fixture.fresh_store)).
  - reflexivity.
  - split; reflexivity.
  - vm_compute. reflexivity.
Defined.

(** C4, as stated: for a lead that is not in the store the reason of the
    result is ["lead_not_found"], so it is not the ["not_found"] of the
    claim. *)
Lemma missing_lead_reason_is_not_the_stated_one :
  leads (Fixture.world (Some (py "true")) Fixture.fresh_store) !! py "L9" = None
  /\ exists r w',
       send_new_lead_notification Fixture.platform (py "L9") Fixture.lead_data
         (Fixture.world (Some (py "true")) Fixture.fresh_store) = (Ret r, w')
       /\ field (py "reason") r = Some (VStr (py "lead_not_found"))
       /\ field (py "reason") r <> Some (VStr (py "not_found")).
Proof.
  split; [vm_compute; reflexivity|].
  eexists _, _. split; [vm_compute; reflexivity|].
  split; [reflexivity|].
  vm_compute. discriminate.
Qed.

(** C1: past the feature gate and with the store answering the read,
    for a lead whose stored record has
    [was_notified = True] the dispatch answers
    [{success: False, reason: "already_notified", message: ...}], hands
    nothing to the messaging client and leaves the store as it was. *)
Theorem notified_lead_is_skipped
    (pf : Platform) (lead_id : pystr) (lead_data : PyVal) (w : World)
    (lead_record : pydict) :
  flag_enabled w = true ->
  store_readable w lead_id ->
  leads w !! lead_id = Some lead_record ->
  dict_lookup (py "was_notified") lead_record = Some (VBool true) ->
  exists w',
    send_new_lead_notification pf lead_id lead_data w
    = (Ret (VDict [(py "success", VBool false);
                   (py "reason", VStr (py "already_notified"));
                   (py "message",
                     VStr (py "Lead " ++ lead_id ++ py " was already notified"))]),
       w')
    /\ sent w' = sent w
    /\ leads w' = leads w.
Proof.
  intros Hflag [Hclient Hfault] Hsome Hnotified. unfold flag_enabled in Hflag.
  unfold send_new_lead_notification. run.
  rewrite Hflag; cbn. rewrite Hclient; cbn. rewrite Hfault; cbn.
  rewrite Hsome; cbn. rewrite Hnotified; cbn.
  eexists. split; [reflexivity|]. auto.
Qed.

Lemma notified_lead_is_skipped_witness :
  exists w',
    send_new_lead_notification Fixture.platform (py "L1") Fixture.lead_data
      (Fixture.world (Some (py "true")) Fixture.notified_store)
    = (Ret (VDict [(py "success", VBool false);
                   (py "reason", VStr (py "already_notified"));
                   (py "message",
                     VStr (py "Lead " ++ py "L1" ++ py " was already notified"))]),
       w')
    /\ sent w' = sent (Fixture.world (Some (py "true")) Fixture.notified_store)
    /\ leads w' = leads (Fixture.world (Some (py "true")) Fixture.notified_store).
Proof.
  apply (notified_lead_is_skipped Fixture.platform (py "L1") Fixture.lead_data
           (Fixture.world (Some (py "true")) Fixture.notified_store)
           [(py "was_notified", VBool true)]).
  - reflexivity.
  - split; reflexivity.
  - vm_compute. reflexivity.
  - reflexivity.
Defined.


(** ** The fan-out *)

Lemma steady_refl (w : World) : steady w w.
Proof. unfold steady. auto. Qed.

Lemma steady_trans (w1 w2 w3 : World) : steady w1 w2 -> steady w2 w3 -> steady w1 w3.
Proof.
  unfold steady. intros (?&?&?&?) (?&?&?&?).
  repeat split; try congruence. lia.
Qed.

Lemma sends_only_refl (message : pystr) (w : World) : sends_only message w w.
Proof. exists []. cbn. by rewrite app_nil_r. Qed.

Lemma sends_only_trans (message : pystr) (w1 w2 w3 : World) :
  sends_only message w1 w2 -> sends_only message w2 w3 -> sends_only message w1 w3.
Proof.
  intros [n1 H1] [n2 H2]. exists (n1 ++ n2).
  rewrite H2, H1, map_app, app_assoc. reflexivity.
Qed.

Lemma successes_app (xs ys : list PyVal) :
  successes (xs ++ ys) = successes xs + successes ys.
Proof.
  induction xs as [|x xs IH]; [reflexivity|].
  cbn [app successes]. destruct (field (py "success") x) as [[| [|] | | | | |]|]; lia.
Qed.

Lemma successes_nonneg (xs : list PyVal) : 0 <= successes xs.
Proof.
  induction xs as [|x xs IH]; [reflexivity|].
  cbn [successes]. destruct (field (py "success") x) as [[| [|] | | | | |]|]; lia.
Qed.

(** One turn of the loop over the lawyers always completes: a failure
    of the phone formatting or of the messaging client becomes an entry
    of [results], and the counter moves with the deliveries. *)
Lemma notify_lawyer_completes
    (pf : Platform) (message : pystr) (acc : list PyVal * Z) (lawyer : pydict) (w : World) :
  exists acc' w',
    notify_lawyer pf message acc lawyer w = (Ret acc', w')
    /\ steady w w' /\ sends_only message w w'
    /\ exists new, acc'.1 = acc.1 ++ new /\ acc'.2 = acc.2 + successes new.
Proof.
  unfold notify_lawyer. run.
  destruct (py_truthy (default (VStr []) (dict_lookup (py "phone") lawyer))); cbn.
  - destruct (format_lawyer_phone_for_whatsapp pf _) as [number|e]; cbn.
    + destruct (send_whatsapp_message (collab w) (length (sent w)) number message)
        as [[|]|e]; cbn;
        (eexists _, _; split; [reflexivity|]; cbn;
         split; [unfold steady; cbn; repeat split; lia|];
         split; [exists [number]; reflexivity|];
         eexists; split; [reflexivity|];
         first [reflexivity | symmetry; apply Z.add_0_r]).
    + eexists _, _; split; [reflexivity|]; cbn.
      split; [unfold steady; cbn; repeat split; lia|].
      split; [exists []; cbn; by rewrite app_nil_r|].
      eexists; split; [reflexivity|]. symmetry; apply Z.add_0_r.
  - eexists _, _; split; [reflexivity|]; cbn.
    split; [unfold steady; cbn; repeat split; lia|].
    split; [exists []; cbn; by rewrite app_nil_r|].
    exists []. split; [by rewrite app_nil_r | symmetry; apply Z.add_0_r].
Qed.

Lemma notify_lawyers_completes
    (pf : Platform) (message : pystr) (lawyers : list pydict) :
  forall (acc : list PyVal * Z) (w : World),
  exists acc' w',
    notify_lawyers pf message acc lawyers w = (Ret acc', w')
    /\ steady w w' /\ sends_only message w w'
    /\ exists new, acc'.1 = acc.1 ++ new /\ acc'.2 = acc.2 + successes new.
Proof.
  induction lawyers as [|lawyer rest IH]; intros acc w.
  - exists acc, w. split; [reflexivity|].
    split; [apply steady_refl|]. split; [apply sends_only_refl|].
    exists []. split; [by rewrite app_nil_r | symmetry; apply Z.add_0_r].
  - destruct (notify_lawyer_completes pf message acc lawyer w)
      as (acc1 & w1 & Hrun1 & Hsteady1 & Hsent1 & new1 & Hnew1 & Hcount1).
    destruct (IH acc1 w1)
      as (acc2 & w2 & Hrun2 & Hsteady2 & Hsent2 & new2 & Hnew2 & Hcount2).
    exists acc2, w2. split.
    + cbn. unfold mbind, M_bind. rewrite Hrun1. exact Hrun2.
    + split; [eapply steady_trans; eassumption|].
      split; [eapply sends_only_trans; eassumption|].
      exists (new1 ++ new2). split.
      * rewrite Hnew2, Hnew1, app_assoc. reflexivity.
      * rewrite Hcount2, Hcount1, successes_app. lia.
Qed.

(** The fan-out always returns a record: the one of lines 198-205 when
    the lawyers could be listed and the message could be built, in which
    case [notifications_sent] counts the entries of [results] that report
    a delivery and every message handed to the client is that message,
    and the one of lines 209-213 otherwise, in which case nothing was
    sent. *)
Lemma send_notifications_completes
    (pf : Platform) (lead_id : pystr) (name phone area situation : PyVal) (w : World) :
  exists r w',
    _send_notifications_to_lawyers pf lead_id name phone area situation w = (Ret r, w')
    /\ steady w w'
    /\ match lawyers_for_notification (collab w), situation_excerpt pf situation with
       | Ret lawyers, Ret excerpt =>
           exists n results ts,
             n = successes results
             /\ r = fanout_record lead_id n (length lawyers) results ts
             /\ sends_only (message_head pf name phone area ++ excerpt
                            ++ message_tail pf lead_id (clock w)) w w'
       | Ret _, Raise e | Raise e, _ =>
           r = fanout_failure (exn_str pf e) /\ sent w' = sent w
       end.
Proof.
  unfold _send_notifications_to_lawyers, notification_message. run.
  destruct (lawyers_for_notification (collab w)) as [lawyers|e]; cbn.
  - destruct (situation_excerpt pf situation) as [excerpt|e]; cbn.
    + set (message := message_head pf name phone area ++ excerpt
                      ++ message_tail pf lead_id (clock w)).
      match goal with
      | |- context [notify_lawyers pf ?m ?acc lawyers ?w0] =>
          destruct (notify_lawyers_completes pf m lawyers acc w0)
            as (acc' & w' & Hrun & Hsteady & Hsent & new & Hnew & Hcount)
      end.
      rewrite Hrun. cbn in *.
      eexists _, _. split; [reflexivity|]. cbn.
      destruct Hsteady as (Hc & Hl & Hs & Hk). cbn in *.
      split; [unfold steady; cbn; repeat split; auto; lia|].
      exists acc'.2, acc'.1, (isoformat pf (clock w')).
      split; [rewrite Hcount, Hnew; reflexivity|]. split; [reflexivity|].
      destruct Hsent as [numbers Hnumbers]. exists numbers. exact Hnumbers.
    + eexists _, _. split; [reflexivity|]. cbn.
      split; [unfold steady; cbn; repeat split; lia | split; reflexivity].
  - eexists _, _. split; [reflexivity|]. cbn.
    split; [unfold steady; cbn; repeat split; lia | split; reflexivity].
Qed.

(** ** Records *)

Lemma dict_lookup_set_eq (k : pystr) (v : PyVal) (d : pydict) :
  dict_lookup k (dict_set k v d) = Some v.
Proof.
  induction d as [|[k' v'] d IH]; cbn.
  - by rewrite bool_decide_eq_true_2.
  - destruct (bool_decide (k' = k)) eqn:Hk; cbn.
    + by rewrite bool_decide_eq_true_2.
    + by rewrite Hk.
Qed.

Lemma dict_lookup_set_ne (k k' : pystr) (v : PyVal) (d : pydict) :
  k <> k' -> dict_lookup k (dict_set k' v d) = dict_lookup k d.
Proof.
  intros Hne. induction d as [|[k0 v0] d IH]; cbn.
  - rewrite bool_decide_eq_false_2; [reflexivity | congruence].
  - destruct (bool_decide (k0 = k')) eqn:Hk'; cbn.
    + apply bool_decide_eq_true_1 in Hk'. subst k0.
      rewrite !(bool_decide_eq_false_2 (k' = k)) by congruence. reflexivity.
    + destruct (bool_decide (k0 = k)); [reflexivity | exact IH].
Qed.

(** What a record reads after the commit has been written to it. *)
Lemma notified_fields_written (t : nat) (r : PyVal) (lead_record : pydict) :
  dict_lookup (py "was_notified") (dict_update (notified_fields t r) lead_record)
  = Some (VBool true)
  /\ dict_lookup (py "notified_at") (dict_update (notified_fields t r) lead_record)
     = Some (VTime t)
  /\ dict_lookup (py "notification_result") (dict_update (notified_fields t r) lead_record)
     = Some r.
Proof.
  unfold dict_update, notified_fields. cbn.
  repeat split.
  - rewrite !dict_lookup_set_ne by (vm_compute; discriminate).
    apply dict_lookup_set_eq.
  - rewrite !dict_lookup_set_ne by (vm_compute; discriminate).
    apply dict_lookup_set_eq.
  - rewrite dict_lookup_set_ne by (vm_compute; discriminate).
    apply dict_lookup_set_eq.
Qed.

Lemma py_get_field (r : PyVal) (k : pystr) (dflt v : PyVal) :
  field k r = Some v -> py_get r k dflt = Ret v.
Proof. destruct r; cbn; try discriminate. intros ->. reflexivity. Qed.

(** ** The commit *)

Lemma mark_as_notified_idle
    (pf : Platform) (lead_id : pystr) (r : PyVal) (n : Z) (w : World) :
  field (py "notifications_sent") r = Some (VInt n) ->
  n <= 0 ->
  mark_as_notified pf lead_id r w = (Ret tt, w).
Proof.
  intros Hfield Hn. unfold mark_as_notified. run.
  rewrite (py_get_field _ _ _ _ Hfield). cbn.
  destruct (Z.ltb_spec 0 n); [lia | reflexivity].
Qed.

Lemma mark_as_notified_commits
    (pf : Platform) (lead_id : pystr) (r : PyVal) (n : Z) (w : World) :
  field (py "notifications_sent") r = Some (VInt n) ->
  0 < n ->
  exists w',
    mark_as_notified pf lead_id r w = (Ret tt, w')
    /\ sent w' = sent w
    /\ clock w' = S (S (clock w))
    /\ store_calls w'
       = store_calls w ++ [DocUpdate lead_id (notified_fields (clock w) r)]
    /\ match update_outcome lead_id (notified_fields (clock w) r) w with
       | Ret lead_record' => leads w' = <[lead_id := lead_record']> (leads w)
       | Raise e =>
           leads w' = leads w
           /\ (ERROR, py "❌ Error updating notification status: " ++ exn_str pf e)
              ∈ logs w'
       end.
Proof.
  intros Hfield Hn. unfold mark_as_notified. run.
  rewrite (py_get_field _ _ _ _ Hfield). cbn.
  destruct (Z.ltb_spec 0 n); [|lia].
  fold (notified_fields (clock w) r).
  unfold update_outcome; cbn.
  destruct (store_fault (collab w) (length (store_calls w))
              (DocUpdate lead_id (notified_fields (clock w) r))) as [e|]; cbn.
  - eexists. split; [reflexivity|]. cbn. repeat split; try reflexivity.
    apply elem_of_app; right. apply list_elem_of_singleton. reflexivity.
  - destruct (leads w !! lead_id) as [lead_record|]; cbn.
    + eexists. split; [reflexivity|]. cbn. repeat split; reflexivity.
    + eexists. split; [reflexivity|]. cbn. repeat split; try reflexivity.
      apply elem_of_app; right. apply list_elem_of_singleton. reflexivity.
Qed.

Lemma update_outcome_steady (lead_id : pystr) (fields : pydict) (w w1 : World) :
  steady w w1 -> update_outcome lead_id fields w1 = update_outcome lead_id fields w.
Proof.
  intros (Hc & Hl & Hs & _). unfold update_outcome. rewrite Hc, Hl, Hs. reflexivity.
Qed.




(** ** The dispatch of a fresh lead *)

Lemma mark_as_notified_completes
    (pf : Platform) (lead_id : pystr) (r : PyVal) (n : Z) (w : World) :
  field (py "notifications_sent") r = Some (VInt n) ->
  exists w', mark_as_notified pf lead_id r w = (Ret tt, w') /\ sent w' = sent w.
Proof.
  intros Hfield. destruct (Z.le_gt_cases n 0) as [Hle|Hgt].
  - exists w. split; [|reflexivity]. eapply mark_as_notified_idle; eassumption.
  - destruct (mark_as_notified_commits pf lead_id r n w Hfield Hgt)
      as (w' & Hmark & Hsent & _). eauto.
Qed.

Lemma fanout_counts (pf : Platform) (lead_id : pystr) (name phone area situation : PyVal)
    (w w' : World) (r : PyVal) :
  _send_notifications_to_lawyers pf lead_id name phone area situation w = (Ret r, w') ->
  exists n, field (py "notifications_sent") r = Some (VInt n)
            /\ field (py "success") r = Some (VBool (0 <? n)).
Proof.
  intros Hrun.
  destruct (send_notifications_completes pf lead_id name phone area situation w)
    as (r0 & w0 & Hrun0 & _ & Hshape).
  rewrite Hrun in Hrun0. injection Hrun0 as <- <-.
  destruct (lawyers_for_notification _) as [lawyers|e];
    [destruct (situation_excerpt pf _) as [excerpt|e]|].
  - destruct Hshape as (n & results & ts & _ & -> & _). exists n. split; reflexivity.
  - destruct Hshape as [-> _]. exists 0. split; reflexivity.
  - destruct Hshape as [-> _]. exists 0. split; reflexivity.
Qed.

(** Past the feature gate and the duplicate guard, the dispatch returns
    what the fan-out over the extracted fields returns, and sends
    nothing beyond what the fan-out sends. *)
Lemma dispatch_runs_fanout
    (pf : Platform) (lead_id : pystr) (lead_data : PyVal) (w : World) (info : LeadInfo) :
  flag_enabled w = true ->
  store_readable w lead_id ->
  fresh_lead w lead_id ->
  extract_lead_info pf lead_data = Ret info ->
  exists r w1 w',
    _send_notifications_to_lawyers pf lead_id (lead_name info) (lead_phone info)
      (area info) (situation info) (fanout_start pf lead_id info w) = (Ret r, w1)
    /\ send_new_lead_notification pf lead_id lead_data w = (Ret r, w')
    /\ sent w' = sent w1.
Proof.
  intros Hflag [Hclient Hfault] (lead_record & Hlead & Hfresh) Hinfo.
  unfold flag_enabled in Hflag.
  destruct (send_notifications_completes pf lead_id (lead_name info) (lead_phone info)
              (area info) (situation info) (fanout_start pf lead_id info w))
    as (r & w1 & Hfan & _ & _).
  destruct (fanout_counts _ _ _ _ _ _ _ _ _ Hfan) as (n & Hfield & _).
  destruct (mark_as_notified_completes pf lead_id r n w1 Hfield) as (w' & Hmark & Hsent).
  exists r, w1, w'. split; [exact Hfan|]. split; [|exact Hsent].
  unfold send_new_lead_notification. run.
  rewrite Hflag; cbn. rewrite Hclient; cbn. rewrite Hfault; cbn.
  rewrite Hlead; cbn. rewrite Hfresh; cbn. rewrite Hinfo; cbn.
  unfold fanout_start, log_entry, store_read in Hfan. cbn in Hfan.
  rewrite Hfan. cbn. rewrite Hmark. reflexivity.
Qed.

(** C5, as the code has it: a dispatch that gets past the feature gate
    and the duplicate guard, reads the lead fields, lists the lawyers and
    builds the message returns the record
    [{success, notifications_sent, total_lawyers, results, lead_id,
    timestamp}], in which [total_lawyers] is the number of configured
    lawyers, [notifications_sent] the number of entries of [results] that
    report a delivery, and [success] is [True] exactly when
    [notifications_sent] is positive. *)
Theorem dispatch_returns_the_aggregate
    (pf : Platform) (lead_id : pystr) (lead_data : PyVal) (w : World)
    (info : LeadInfo) (lawyers : list pydict) (excerpt : pystr) :
  flag_enabled w = true ->
  store_readable w lead_id ->
  fresh_lead w lead_id ->
  extract_lead_info pf lead_data = Ret info ->
  lawyers_for_notification (collab w) = Ret lawyers ->
  situation_excerpt pf (situation info) = Ret excerpt ->
  exists (n : Z) (results : list PyVal) (ts : pystr) (w' : World),
    send_new_lead_notification pf lead_id lead_data w
    = (Ret (VDict [(py "success", VBool (0 <? n));
                   (py "notifications_sent", VInt n);
                   (py "total_lawyers", VInt (Z.of_nat (length lawyers)));
                   (py "results", VList results);
                   (py "lead_id", VStr lead_id);
                   (py "timestamp", VStr ts)]), w')
    /\ n = successes results
    /\ ((0 <? n) = true <-> 0 < n).
Proof.
  intros Hflag Hstore Hfresh Hinfo Hlawyers Hexcerpt.
  destruct (dispatch_runs_fanout pf lead_id lead_data w info Hflag Hstore Hfresh Hinfo)
    as (r & w1 & w' & Hfan & Hrun & _).
  destruct (send_notifications_completes pf lead_id (lead_name info) (lead_phone info)
              (area info) (situation info) (fanout_start pf lead_id info w))
    as (r0 & w0 & Hfan0 & _ & Hshape).
  rewrite Hfan in Hfan0. injection Hfan0 as <- <-.
  change (collab (fanout_start pf lead_id info w)) with (collab w) in Hshape.
  rewrite Hlawyers, Hexcerpt in Hshape.
  destruct Hshape as (n & results & ts & Hcount & -> & _).
  exists n, results, ts, w'. split; [exact Hrun|]. split; [exact Hcount|].
  apply Z.ltb_lt.
Qed.

Lemma dispatch_returns_the_aggregate_witness :
  exists (n : Z) (results : list PyVal) (ts : pystr) (w' : World),
    send_new_lead_notification Fixture.platform (py "L1") Fixture.lead_data
      Fixture.enabled_world
    = (Ret (VDict [(py "success", VBool (0 <? n));
                   (py "notifications_sent", VInt n);
                   (py "total_lawyers", VInt (Z.of_nat (length Fixture.lawyers)));
                   (py "results", VList results);
                   (py "lead_id", VStr (py "L1"));
                   (py "timestamp", VStr ts)]), w')
    /\ n = successes results
    /\ ((0 <? n) = true <-> 0 < n).
Proof.
  apply (dispatch_returns_the_aggregate Fixture.platform (py "L1") Fixture.lead_data
           Fixture.enabled_world
           {| lead_name := VStr (py "Ana"); lead_phone := VStr (py "11999999999");
              area := VStr (py "Criminal"); situation := VStr (py "Dispute") |}
           Fixture.lawyers (py "Dispute")).
  - reflexivity.
  - split; reflexivity.
  - exists [(py "was_notified", VBool false)]. split; vm_compute; reflexivity.
  - vm_compute. reflexivity.
  - reflexivity.
  - vm_compute. reflexivity.
Defined.

(** C5, as stated: the result of the example dispatch (two lawyers, one
    of them reached) carries the number of lawyers under
    [total_lawyers]; it has no field [total_recipients]. *)
Lemma aggregate_has_no_total_recipients :
  Fixture.dispatched.1 = Ret Fixture.dispatched_result
  /\ field (py "success") Fixture.dispatched_result = Some (VBool true)
  /\ field (py "total_lawyers") Fixture.dispatched_result = Some (VInt 2)
  /\ field (py "total_recipients") Fixture.dispatched_result = None.
Proof. repeat split; vm_compute; reflexivity. Qed.

(** ** The outgoing message *)

(** C7: in the message built for a lead, which is the text of every
    message the fan-out hands to the messaging client, the situation is
    shown between the same head and tail as its first 200 characters
    followed by ["..."] when it is longer than 200 characters, and in
    full, with nothing after it, when it has 200 characters or fewer. *)
Theorem situation_is_cut_at_200
    (pf : Platform) (lead_id : pystr) (name phone area : PyVal) (s : pystr) (w : World) :
  exists (shown : pystr) (r : PyVal) (w1 w' : World),
    notification_message pf lead_id name phone area (VStr s) w
    = (Ret (message_head pf name phone area ++ shown
            ++ message_tail pf lead_id (clock w)), w1)
    /\ _send_notifications_to_lawyers pf lead_id name phone area (VStr s) w = (Ret r, w')
    /\ sends_only (message_head pf name phone area ++ shown
                   ++ message_tail pf lead_id (clock w)) w w'
    /\ ((200 < length s)%nat -> shown = take 200 s ++ py "...")
    /\ ((length s <= 200)%nat -> shown = s).
Proof.
  exists (take 200 s ++ (if (200 <? length s)%nat then py "..." else [])).
  destruct (send_notifications_completes pf lead_id name phone area (VStr s) w)
    as (r & w' & Hrun & _ & Hshape).
  exists r. eexists. exists w'.
  split; [unfold notification_message; run; reflexivity|].
  split; [exact Hrun|].
  split.
  - destruct (lawyers_for_notification (collab w)) as [lawyers|e]; cbn in Hshape.
    + destruct Hshape as (n & results & ts & _ & _ & Hsent). exact Hsent.
    + destruct Hshape as [_ Hsent]. exists []. cbn. by rewrite app_nil_r.
  - split; intros Hlen.
    + destruct (Nat.ltb_spec 200 (length s)); [reflexivity | lia].
    + destruct (Nat.ltb_spec 200 (length s)); [lia|].
      rewrite take_ge by lia. apply app_nil_r.
Qed.

(** The example lead with a situation of 201 characters: both lawyers
    are sent the same message, in which 200 of them are followed by the
    ellipsis. *)
Example long_situation_goes_out_cut :
  map snd
    (sent (_send_notifications_to_lawyers Fixture.platform (py "L1")
             (VStr (py "Ana")) (VStr (py "11999999999")) (VStr (py "Criminal"))
             (VStr (repeat 97%N 201)) Fixture.enabled_world).2)
  = repeat
      (message_head Fixture.platform
         (VStr (py "Ana")) (VStr (py "11999999999")) (VStr (py "Criminal"))
       ++ repeat 97%N 200 ++ py "..."
       ++ message_tail Fixture.platform (py "L1") 0)
      2.
Proof. vm_compute. reflexivity. Qed.

(** ** Totality *)

(** C8: whatever the arguments are and whichever collaborators fail,
    the dispatch returns a record with a boolean [success], the status
    check returns a record with a boolean [exists] and a [was_notified],
    and the reset returns a boolean; none of the three raises. *)
Theorem operations_never_raise
    (pf : Platform) (lead_id : pystr) (lead_data : PyVal) (w : World) :
  (exists (r : PyVal) (w' : World) (b : bool),
     send_new_lead_notification pf lead_id lead_data w = (Ret r, w')
     /\ field (py "success") r = Some (VBool b))
  /\ (exists (r : PyVal) (w' : World) (b : bool),
        check_notification_status pf lead_id w = (Ret r, w')
        /\ field (py "exists") r = Some (VBool b)
        /\ is_Some (field (py "was_notified") r))
  /\ (exists (b : bool) (w' : World),
        reset_notification_status pf lead_id w = (Ret b, w')).
Proof.
  split; [|split].
  - unfold send_new_lead_notification. run.
    destruct (bool_decide _); cbn; [|eexists _, _, _; split; reflexivity].
    destruct (firestore_client (collab w)); cbn;
      [eexists _, _, _; split; reflexivity|].
    destruct (store_fault (collab w) _ _); cbn;
      [eexists _, _, _; split; reflexivity|].
    destruct (leads w !! lead_id) as [lead_record|]; cbn;
      [|eexists _, _, _; split; reflexivity].
    destruct (py_truthy _); cbn; [eexists _, _, _; split; reflexivity|].
    destruct (extract_lead_info pf lead_data) as [info|e]; cbn;
      [|eexists _, _, _; split; reflexivity].
    match goal with
    | |- context [_send_notifications_to_lawyers pf lead_id ?a ?b ?c ?d ?w0] =>
        destruct (send_notifications_completes pf lead_id a b c d w0)
          as (r & w1 & Hfan & _ & _)
    end.
    rewrite Hfan. cbn.
    destruct (fanout_counts _ _ _ _ _ _ _ _ _ Hfan) as (n & Hfield & Hsuccess).
    destruct (mark_as_notified_completes pf lead_id r n w1 Hfield) as (w' & Hmark & _).
    rewrite Hmark. cbn. eexists _, _, _. split; [reflexivity | exact Hsuccess].
  - unfold check_notification_status. run.
    destruct (firestore_client (collab w)); cbn;
      [eexists _, _, _; repeat split; eexists; reflexivity|].
    destruct (store_fault (collab w) _ _); cbn;
      [eexists _, _, _; repeat split; eexists; reflexivity|].
    destruct (leads w !! lead_id) as [lead_record|]; cbn;
      eexists _, _, _; repeat split; eexists; reflexivity.
  - unfold reset_notification_status. run.
    destruct (firestore_client (collab w)); cbn; [eexists _, _; reflexivity|].
    destruct (update_outcome _ _ _); cbn; eexists _, _; reflexivity.
Qed.

(** ** The extraction of the lead fields *)

Lemma parse_answer_typed (pf : Platform) (acc : LeadInfo) (a : Z * pystr) :
  exists acc',
    parse_answer pf acc (typed_answer a) = Ret acc'
    /\ forall f, get_field f acc' = if rule pf f a then VStr a.2 else get_field f acc.
Proof.
  destruct a as [id text]. unfold parse_answer.
  replace (py_get (typed_answer (id, text)) (py "id") (VInt 0)) with (Ret (VInt id))
    by reflexivity.
  replace (py_get (typed_answer (id, text)) (py "answer") (VStr [])) with (Ret (VStr text))
    by reflexivity.
  unfold mbind, outcome_bind, rule. cbn.
  destruct (Z.eqb_spec id 1) as [->|H1].
  { eexists. split; [reflexivity|]. intros []; reflexivity. }
  destruct (Z.eqb_spec id 2) as [->|H2].
  { eexists. split; [reflexivity|]. intros []; reflexivity. }
  destruct (Z.eqb_spec id 3) as [->|H3].
  { eexists. split; [reflexivity|]. intros []; reflexivity. }
  destruct (4 <=? id); cbn; [destruct (str_isdigit pf text)|];
    (eexists; split; [reflexivity|]; intros []; reflexivity).
Qed.

(** Over typed answers the loop never raises, and it leaves in each
    field what the rule of the field settles. *)
Lemma parse_answers_typed (pf : Platform) (answers : list (Z * pystr)) :
  forall acc : LeadInfo,
  exists info,
    parse_answers pf acc (map typed_answer answers) = Ret info
    /\ forall f, get_field f info = settle pf f answers (get_field f acc).
Proof.
  induction answers as [|a rest IH]; intros acc.
  - exists acc. split; reflexivity.
  - destruct (parse_answer_typed pf acc a) as (acc1 & Hstep & Hfields).
    destruct (IH acc1) as (info & Hrest & Hsettled).
    exists info. split.
    + cbn [map parse_answers]. rewrite Hstep. exact Hrest.
    + intros f. rewrite Hsettled, Hfields. reflexivity.
Qed.

Lemma settle_no_match (pf : Platform) (f : lead_field) (answers : list (Z * pystr)) :
  forall current : PyVal,
  (forall b, b ∈ answers -> rule pf f b = false) ->
  settle pf f answers current = current.
Proof.
  induction answers as [|a rest IH]; intros current Hnone; [reflexivity|].
  unfold settle. cbn. rewrite (Hnone a) by apply list_elem_of_here.
  apply IH. intros b Hb. apply Hnone. by apply list_elem_of_further.
Qed.

Lemma settle_last_match (pf : Platform) (f : lead_field)
    (before after : list (Z * pystr)) (a : Z * pystr) (current : PyVal) :
  rule pf f a = true ->
  (forall b, b ∈ after -> rule pf f b = false) ->
  settle pf f (before ++ a :: after) current = VStr a.2.
Proof.
  intros Ha Hafter. unfold settle. rewrite fold_left_app. cbn. rewrite Ha.
  apply (settle_no_match pf f after). exact Hafter.
Qed.

Lemma settle_only_match (pf : Platform) (f : lead_field) (answers : list (Z * pystr))
    (a : Z * pystr) :
  forall current : PyVal,
  a ∈ answers ->
  rule pf f a = true ->
  (forall b, b ∈ answers -> rule pf f b = true -> b.2 = a.2) ->
  settle pf f answers current = VStr a.2.
Proof.
  intros current Hin Ha Honly.
  apply list_elem_of_split in Hin as (before & after & ->).
  revert current. induction after as [|c after IH] using rev_ind; intros current.
  - apply settle_last_match; [exact Ha|]. intros b Hb. by apply elem_of_nil in Hb.
  - replace (before ++ a :: after ++ [c]) with ((before ++ a :: after) ++ [c])
      by (rewrite <- app_assoc; reflexivity).
    unfold settle. rewrite fold_left_app. cbn.
    destruct (rule pf f c) eqn:Hc.
    + f_equal. apply Honly; [|exact Hc].
      rewrite !elem_of_app, elem_of_cons, elem_of_app, list_elem_of_singleton. auto.
    + apply IH. intros b Hb. apply Honly.
      rewrite !elem_of_app, elem_of_cons in Hb.
      rewrite !elem_of_app, elem_of_cons, elem_of_app. tauto.
Qed.

Lemma extract_typed (pf : Platform) (d : pydict) (answers : list (Z * pystr)) :
  dict_lookup (py "answers") d = Some (VList (map typed_answer answers)) ->
  exists info,
    extract_lead_info pf (VDict d) = Ret info
    /\ forall f, get_field f info = settle pf f answers (VStr (placeholder f)).
Proof.
  intros Hanswers.
  destruct (parse_answers_typed pf answers placeholders) as (info & Hparse & Hfields).
  exists info. split.
  - unfold extract_lead_info, py_get. rewrite Hanswers. exact Hparse.
  - intros f. rewrite Hfields. destruct f; reflexivity.
Qed.

(** C6: over a payload whose answers are typed as in the data model the
    extraction returns the four fields and does not raise.  A field is
    the text of the answer its rule takes (id 1 for the name, id 2 for
    the area, id 3 for the situation, id 4 or more with a numeric text
    for the phone) when the answers it takes all carry that text, and its
    placeholder when the rule takes none of the answers. *)
Theorem fields_follow_the_id_convention
    (pf : Platform) (d : pydict) (answers : list (Z * pystr)) :
  dict_lookup (py "answers") d = Some (VList (map typed_answer answers)) ->
  exists info,
    extract_lead_info pf (VDict d) = Ret info
    /\ forall f : lead_field,
         (forall a, a ∈ answers -> rule pf f a = true ->
                    (forall b, b ∈ answers -> rule pf f b = true -> b.2 = a.2) ->
                    get_field f info = VStr a.2)
         /\ ((forall b, b ∈ answers -> rule pf f b = false) ->
             get_field f info = VStr (placeholder f)).
Proof.
  intros Hanswers.
  destruct (extract_typed pf d answers Hanswers) as (info & Hrun & Hfields).
  exists info. split; [exact Hrun|].
  intros f. rewrite Hfields. split.
  - intros a Hin Ha Honly. by apply settle_only_match.
  - intros Hnone. by apply settle_no_match.
Qed.

Lemma fields_follow_the_id_convention_witness :
  exists info,
    extract_lead_info Fixture.platform Fixture.lead_data = Ret info
    /\ forall f : lead_field,
         (forall a,
             a ∈ [(1, py "Ana"); (2, py "Criminal"); (3, py "Dispute");
                  (4, py "11999999999")] ->
             rule Fixture.platform f a = true ->
             (forall b,
                 b ∈ [(1, py "Ana"); (2, py "Criminal"); (3, py "Dispute");
                      (4, py "11999999999")] ->
                 rule Fixture.platform f b = true -> b.2 = a.2) ->
             get_field f info = VStr a.2)
         /\ ((forall b,
                 b ∈ [(1, py "Ana"); (2, py "Criminal"); (3, py "Dispute");
                      (4, py "11999999999")] ->
                 rule Fixture.platform f b = false) ->
             get_field f info = VStr (placeholder f)).
Proof.
  apply (fields_follow_the_id_convention Fixture.platform
           [(py "answers",
             VList [Fixture.answer 1 "Ana"; Fixture.answer 2 "Criminal";
                    Fixture.answer 3 "Dispute"; Fixture.answer 4 "11999999999"])]
           [(1, py "Ana"); (2, py "Criminal"); (3, py "Dispute"); (4, py "11999999999")]).
  reflexivity.
Defined.

(** C10: when several answers fall under the rule of a field, the one
    that comes last in the sequence gives the field its value, whatever
    came before it. *)
Theorem last_matching_answer_wins
    (pf : Platform) (d : pydict) (before after : list (Z * pystr)) (a : Z * pystr)
    (f : lead_field) :
  dict_lookup (py "answers") d = Some (VList (map typed_answer (before ++ a :: after))) ->
  rule pf f a = true ->
  (forall b, b ∈ after -> rule pf f b = false) ->
  exists info,
    extract_lead_info pf (VDict d) = Ret info
    /\ get_field f info = VStr a.2.
Proof.
  intros Hanswers Ha Hafter.
  destruct (extract_typed pf d _ Hanswers) as (info & Hrun & Hfields).
  exists info. split; [exact Hrun|].
  rewrite Hfields. by apply settle_last_match.
Qed.

Lemma last_matching_answer_wins_witness :
  exists info,
    extract_lead_info Fixture.platform
      (VDict [(py "answers",
               VList [Fixture.answer 4 "11911111111"; Fixture.answer 1 "Ana";
                      Fixture.answer 5 "11922222222"; Fixture.answer 6 "none"])])
    = Ret info
    /\ get_field Phone info = VStr (py "11922222222").
Proof.
  apply (last_matching_answer_wins Fixture.platform
           [(py "answers",
             VList [Fixture.answer 4 "11911111111"; Fixture.answer 1 "Ana";
                    Fixture.answer 5 "11922222222"; Fixture.answer 6 "none"])]
           [(4, py "11911111111"); (1, py "Ana")] [(6, py "none")]
           (5, py "11922222222") Phone).
  - reflexivity.
  - vm_compute. reflexivity.
  - intros b Hb. apply list_elem_of_singleton in Hb. rewrite Hb. vm_compute. reflexivity.
Defined.

Lemma extract_without_answers (pf : Platform) (d : pydict) :
  dict_lookup (py "answers") d = None ->
  extract_lead_info pf (VDict d) = Ret placeholders.
Proof.
  intros Hnone. unfold extract_lead_info, py_get. rewrite Hnone. reflexivity.
Qed.

Lemma extract_empty_answers (pf : Platform) (d : pydict) :
  dict_lookup (py "answers") d = Some (VList []) ->
  extract_lead_info pf (VDict d) = Ret placeholders.
Proof.
  intros Hempty. unfold extract_lead_info, py_get. rewrite Hempty. reflexivity.
Qed.

(** The dispatch looks at the payload only through the extraction. *)
Lemma dispatch_reads_payload_through_extraction
    (pf : Platform) (lead_id : pystr) (lead_data lead_data' : PyVal) (w : World) :
  extract_lead_info pf lead_data = extract_lead_info pf lead_data' ->
  send_new_lead_notification pf lead_id lead_data w
  = send_new_lead_notification pf lead_id lead_data' w.
Proof.
  intros Hsame. unfold send_new_lead_notification. rewrite Hsame. reflexivity.
Qed.

(** C9: a payload without the key [answers] is dispatched exactly as
    the same payload with [answers] set to the empty list: the four
    fields take their placeholders, and for a fresh lead past the feature
    gate the dispatch returns what the fan-out over the placeholders
    returns. *)
Theorem missing_answers_are_empty_answers
    (pf : Platform) (lead_id : pystr) (d : pydict) (w : World) :
  dict_lookup (py "answers") d = None ->
  extract_lead_info pf (VDict d) = Ret placeholders
  /\ send_new_lead_notification pf lead_id (VDict d) w
     = send_new_lead_notification pf lead_id
         (VDict (dict_set (py "answers") (VList []) d)) w
  /\ (flag_enabled w = true -> store_readable w lead_id -> fresh_lead w lead_id ->
      exists r w1 w',
        _send_notifications_to_lawyers pf lead_id
          (VStr (placeholder Name)) (VStr (placeholder Phone))
          (VStr (placeholder Area)) (VStr (placeholder Situation))
          (fanout_start pf lead_id placeholders w) = (Ret r, w1)
        /\ send_new_lead_notification pf lead_id (VDict d) w = (Ret r, w')
        /\ sent w' = sent w1).
Proof.
  intros Hnone.
  pose proof (extract_without_answers pf d Hnone) as Hextract.
  split; [exact Hextract|]. split.
  - apply dispatch_reads_payload_through_extraction.
    rewrite Hextract. symmetry. apply extract_empty_answers.
    apply dict_lookup_set_eq.
  - intros Hflag Hstore Hfresh.
    apply (dispatch_runs_fanout pf lead_id (VDict d) w placeholders Hflag Hstore Hfresh
             Hextract).
Qed.

Lemma missing_answers_are_empty_answers_witness :
  extract_lead_info Fixture.platform (VDict [(py "source", VStr (py "landing"))])
  = Ret placeholders
  /\ send_new_lead_notification Fixture.platform (py "L1")
       (VDict [(py "source", VStr (py "landing"))]) Fixture.enabled_world
     = send_new_lead_notification Fixture.platform (py "L1")
         (VDict (dict_set (py "answers") (VList [])
                   [(py "source", VStr (py "landing"))])) Fixture.enabled_world
  /\ exists r w1 w',
       _send_notifications_to_lawyers Fixture.platform (py "L1")
         (VStr (placeholder Name)) (VStr (placeholder Phone))
         (VStr (placeholder Area)) (VStr (placeholder Situation))
         (fanout_start Fixture.platform (py "L1") placeholders Fixture.enabled_world)
       = (Ret r, w1)
       /\ send_new_lead_notification Fixture.platform (py "L1")
            (VDict [(py "source", VStr (py "landing"))]) Fixture.enabled_world
          = (Ret r, w')
       /\ sent w' = sent w1.
Proof.
  destruct (missing_answers_are_empty_answers Fixture.platform (py "L1")
              [(py "source", VStr (py "landing"))] Fixture.enabled_world)
    as (Hfields & Hsame & Hfanout); [vm_compute; reflexivity|].
  split; [exact Hfields|]. split; [exact Hsame|].
  apply Hfanout.
  - reflexivity.
  - split; reflexivity.
  - exists [(py "was_notified", VBool false)]. split; vm_compute; reflexivity.
Defined.

(** * Further properties of the service *)

(** ** What a dispatch leaves behind *)

(** Every dispatch ends in one of two ways.  Either it answers
    [success: False] and the stored leads are as they were, the store
    having been read at most once; or it answers [success: True] with a
    positive count, having passed the feature gate, read the lead and
    asked the store once to mark it. *)
Lemma dispatch_outcomes
    (pf : Platform) (lead_id : pystr) (lead_data : PyVal) (w : World) :
  exists r w',
    send_new_lead_notification pf lead_id lead_data w = (Ret r, w')
    /\ collab w' = collab w
    /\ ((field (py "success") r = Some (VBool false)
         /\ leads w' = leads w
         /\ (store_calls w' = store_calls w
             \/ store_calls w' = store_calls w ++ [DocGet lead_id]))
        \/ (exists (n : Z) (t : nat),
              0 < n
              /\ field (py "notifications_sent") r = Some (VInt n)
              /\ field (py "success") r = Some (VBool true)
              /\ flag_enabled w = true
              /\ firestore_client (collab w) = None
              /\ fresh_lead w lead_id
              /\ store_calls w'
                 = store_calls w
                   ++ [DocGet lead_id; DocUpdate lead_id (notified_fields t r)]
              /\ match update_outcome lead_id (notified_fields t r)
                         (store_read lead_id w) with
                 | Ret lead_record' => leads w' = <[lead_id := lead_record']> (leads w)
                 | Raise _ => leads w' = leads w
                 end)).
Proof.
  unfold flag_enabled, send_new_lead_notification. run.
  destruct (bool_decide _) eqn:Hflag; cbn;
    [|eexists _, _; split; [reflexivity|]; split; [reflexivity|]; left; auto].
  destruct (firestore_client (collab w)) eqn:Hclient; cbn;
    [eexists _, _; split; [reflexivity|]; split; [reflexivity|]; left; auto|].
  destruct (store_fault (collab w) _ _); cbn;
    [eexists _, _; split; [reflexivity|]; split; [reflexivity|]; left; auto|].
  destruct (leads w !! lead_id) as [lead_record|] eqn:Hlead; cbn;
    [|eexists _, _; split; [reflexivity|]; split; [reflexivity|]; left; auto].
  destruct (py_truthy _) eqn:Hfresh; cbn;
    [eexists _, _; split; [reflexivity|]; split; [reflexivity|]; left; auto|].
  destruct (extract_lead_info pf lead_data) as [info|e]; cbn;
    [|eexists _, _; split; [reflexivity|]; split; [reflexivity|]; left; auto].
  match goal with
  | |- context [_send_notifications_to_lawyers pf lead_id ?a ?b ?c ?d ?w0] =>
      destruct (send_notifications_completes pf lead_id a b c d w0)
        as (r & w1 & Hfan & Hsteady & _)
  end.
  rewrite Hfan. cbn.
  destruct (fanout_counts _ _ _ _ _ _ _ _ _ Hfan) as (n & Hfield & Hsuccess).
  destruct Hsteady as (Hc & Hl & Hs & Hk). cbn in Hc, Hl, Hs, Hk.
  destruct (Z.le_gt_cases n 0) as [Hle|Hgt].
  - rewrite (mark_as_notified_idle pf lead_id r n w1 Hfield Hle). cbn.
    exists r, w1. split; [reflexivity|]. split; [exact Hc|]. left.
    split; [|auto]. rewrite Hsuccess.
    destruct (Z.ltb_spec 0 n); [lia | reflexivity].
  - destruct (mark_as_notified_commits pf lead_id r n w1 Hfield Hgt)
      as (w2 & Hmark & Hsent & Hclock & Hcalls & Hout).
    rewrite Hmark. cbn. exists r, w2. split; [reflexivity|].
    assert (Hc2 : collab w2 = collab w1).
    { revert Hmark. unfold mark_as_notified. run.
      rewrite (py_get_field _ _ _ _ Hfield). cbn.
      destruct (Z.ltb_spec 0 n); [|lia].
      destruct (update_outcome _ _ _); cbn; intros Hm; inversion Hm; reflexivity. }
    split; [congruence|]. right. exists n, (clock w1).
    split; [exact Hgt|]. split; [exact Hfield|].
    split; [rewrite Hsuccess; destruct (Z.ltb_spec 0 n); [reflexivity | lia]|].
    split; [reflexivity|]. split; [reflexivity|].
    split; [exists lead_record; split; [exact Hlead | exact Hfresh]|].
    split; [rewrite Hcalls, Hs, <- app_assoc; reflexivity|].
    rewrite (update_outcome_steady lead_id _ (store_read lead_id w) w1) in Hout
      by (unfold steady; cbn; auto).
    fold (store_read lead_id w).
    destruct (update_outcome _ _ (store_read lead_id w)).
    + rewrite Hout, Hl. reflexivity.
    + destruct Hout as [Hout _]. congruence.
Qed.

(** X1: a dispatch that answered [success: False] has written nothing: the
    stored leads are as before and the store was at most read. *)
Theorem failed_dispatch_writes_nothing
    (pf : Platform) (lead_id : pystr) (lead_data : PyVal) (w w' : World) (r : PyVal) :
  send_new_lead_notification pf lead_id lead_data w = (Ret r, w') ->
  field (py "success") r = Some (VBool false) ->
  leads w' = leads w
  /\ (store_calls w' = store_calls w
      \/ store_calls w' = store_calls w ++ [DocGet lead_id]).
Proof.
  intros Hrun Hfailed.
  destruct (dispatch_outcomes pf lead_id lead_data w)
    as (r0 & w0 & Hrun0 & _ & [(_ & Hleads & Hcalls)|Hdelivered]);
    rewrite Hrun in Hrun0; injection Hrun0 as <- <-.
  - auto.
  - destruct Hdelivered as (n & t & _ & _ & Hsuccess & _). congruence.
Qed.

Lemma failed_dispatch_writes_nothing_witness :
  leads (send_new_lead_notification Fixture.platform (py "L1") Fixture.lead_data
           Scenario.declining_world).2
  = leads Scenario.declining_world
  /\ (store_calls (send_new_lead_notification Fixture.platform (py "L1")
                     Fixture.lead_data Scenario.declining_world).2
      = store_calls Scenario.declining_world
      \/ store_calls (send_new_lead_notification Fixture.platform (py "L1")
                        Fixture.lead_data Scenario.declining_world).2
         = store_calls Scenario.declining_world ++ [DocGet (py "L1")]).
Proof.
  apply (failed_dispatch_writes_nothing Fixture.platform (py "L1") Fixture.lead_data
           Scenario.declining_world _
           (returned (send_new_lead_notification Fixture.platform (py "L1")
                        Fixture.lead_data Scenario.declining_world))).
  - vm_compute. reflexivity.
  - vm_compute. reflexivity.
Defined.

(** After a dispatch that answered [success: True] in a deployment
    whose store does not fail, the lead is marked: the feature gate is
    still open, and the stored record reads [was_notified = True], the
    time of the commit and the result of the dispatch. *)
Lemma delivered_dispatch_marks_lead
    (pf : Platform) (lead_id : pystr) (lead_data : PyVal) (w w' : World) (r : PyVal) :
  send_new_lead_notification pf lead_id lead_data w = (Ret r, w') ->
  field (py "success") r = Some (VBool true) ->
  (forall k c, store_fault (collab w) k c = None) ->
  collab w' = collab w
  /\ flag_enabled w' = true
  /\ firestore_client (collab w') = None
  /\ exists (t : nat) (lead_record' : pydict),
       leads w' !! lead_id = Some lead_record'
       /\ dict_lookup (py "was_notified") lead_record' = Some (VBool true)
       /\ dict_lookup (py "notified_at") lead_record' = Some (VTime t)
       /\ dict_lookup (py "notification_result") lead_record' = Some r.
Proof.
  intros Hrun Hdelivered Hstore.
  destruct (dispatch_outcomes pf lead_id lead_data w)
    as (r0 & w0 & Hrun0 & Hc & [(Hfailed & _)|Hmarked]);
    rewrite Hrun in Hrun0; injection Hrun0 as <- <-; [congruence|].
  destruct Hmarked
    as (n & t & _ & _ & _ & Hflag & Hclient & (lead_record & Hlead & _) & _ & Hout).
  split; [exact Hc|].
  split; [unfold flag_enabled in *; rewrite Hc; exact Hflag|].
  split; [rewrite Hc; exact Hclient|].
  unfold update_outcome in Hout. rewrite Hstore in Hout. cbn in Hout.
  rewrite Hlead in Hout.
  exists t, (dict_update (notified_fields t r) lead_record).
  split; [rewrite Hout; apply lookup_insert_eq|].
  apply notified_fields_written.
Qed.

(** X2: a status check that follows a successful dispatch reports the lead
    as notified, with the time of the commit and the result the dispatch
    returned. *)
Theorem delivered_dispatch_shows_in_status
    (pf : Platform) (lead_id : pystr) (lead_data : PyVal) (w w' : World) (r : PyVal) :
  send_new_lead_notification pf lead_id lead_data w = (Ret r, w') ->
  field (py "success") r = Some (VBool true) ->
  (forall k c, store_fault (collab w) k c = None) ->
  exists t : nat,
    check_notification_status pf lead_id w'
    = (Ret (VDict [(py "exists", VBool true);
                   (py "was_notified", VBool true);
                   (py "notified_at", VTime t);
                   (py "notification_result", r);
                   (py "lead_id", VStr lead_id)]),
       store_read lead_id w').
Proof.
  intros Hrun Hdelivered Hstore.
  destruct (delivered_dispatch_marks_lead pf lead_id lead_data w w' r Hrun Hdelivered Hstore)
    as (Hc & _ & Hclient & t & lead_record' & Hlead & Hnotified & Hat & Hresult).
  exists t. unfold check_notification_status. run.
  rewrite Hclient; cbn. rewrite Hc, Hstore; cbn. rewrite Hlead; cbn.
  rewrite Hnotified, Hat, Hresult. reflexivity.
Qed.

Lemma delivered_dispatch_shows_in_status_witness :
  exists t : nat,
    check_notification_status Fixture.platform (py "L1") Fixture.dispatched.2
    = (Ret (VDict [(py "exists", VBool true);
                   (py "was_notified", VBool true);
                   (py "notified_at", VTime t);
                   (py "notification_result", Fixture.dispatched_result);
                   (py "lead_id", VStr (py "L1"))]),
       store_read (py "L1") Fixture.dispatched.2).
Proof.
  apply (delivered_dispatch_shows_in_status Fixture.platform (py "L1") Fixture.lead_data
           Fixture.enabled_world Fixture.dispatched.2 Fixture.dispatched_result).
  - vm_compute. reflexivity.
  - vm_compute. reflexivity.
  - intros k c. reflexivity.
Defined.

(** X3: a lead that was dispatched with success is not notified again: in a
    deployment whose store does not fail, any further dispatch of the
    same lead, whatever its payload, answers ["already_notified"] and
    hands nothing to the messaging client. *)
Theorem delivered_lead_is_not_notified_again
    (pf : Platform) (lead_id : pystr) (lead_data again : PyVal) (w w' : World)
    (r : PyVal) :
  send_new_lead_notification pf lead_id lead_data w = (Ret r, w') ->
  field (py "success") r = Some (VBool true) ->
  (forall k c, store_fault (collab w) k c = None) ->
  exists w'',
    send_new_lead_notification pf lead_id again w'
    = (Ret (VDict [(py "success", VBool false);
                   (py "reason", VStr (py "already_notified"));
                   (py "message",
                     VStr (py "Lead " ++ lead_id ++ py " was already notified"))]),
       w'')
    /\ sent w'' = sent w'
    /\ leads w'' = leads w'.
Proof.
  intros Hrun Hdelivered Hstore.
  destruct (delivered_dispatch_marks_lead pf lead_id lead_data w w' r Hrun Hdelivered Hstore)
    as (Hc & Hflag & Hclient & t & lead_record' & Hlead & Hnotified & _).
  unfold flag_enabled in Hflag.
  unfold send_new_lead_notification. run.
  rewrite Hflag; cbn. rewrite Hclient; cbn. rewrite Hc, Hstore; cbn.
  rewrite Hlead; cbn. rewrite Hnotified; cbn.
  eexists. split; [reflexivity|]. auto.
Qed.

Lemma delivered_lead_is_not_notified_again_witness :
  exists w'',
    send_new_lead_notification Fixture.platform (py "L1") VNone Fixture.dispatched.2
    = (Ret (VDict [(py "success", VBool false);
                   (py "reason", VStr (py "already_notified"));
                   (py "message",
                     VStr (py "Lead " ++ py "L1" ++ py " was already notified"))]),
       w'')
    /\ sent w'' = sent Fixture.dispatched.2
    /\ leads w'' = leads Fixture.dispatched.2.
Proof.
  apply (delivered_lead_is_not_notified_again Fixture.platform (py "L1")
           Fixture.lead_data VNone Fixture.enabled_world Fixture.dispatched.2
           Fixture.dispatched_result).
  - vm_compute. reflexivity.
  - vm_compute. reflexivity.
  - intros k c. reflexivity.
Defined.

(** ** Reset and status check *)

(** What a record reads after the reset has been written to it. *)
Lemma reset_fields_written (t : nat) (lead_record : pydict) :
  dict_lookup (py "was_notified")
    (dict_update [(py "was_notified", VBool false); (py "notified_at", VNone);
                  (py "notification_result", VNone); (py "updated_at", VTime t)]
       lead_record) = Some (VBool false)
  /\ dict_lookup (py "notified_at")
       (dict_update [(py "was_notified", VBool false); (py "notified_at", VNone);
                     (py "notification_result", VNone); (py "updated_at", VTime t)]
          lead_record) = Some VNone
  /\ dict_lookup (py "notification_result")
       (dict_update [(py "was_notified", VBool false); (py "notified_at", VNone);
                     (py "notification_result", VNone); (py "updated_at", VTime t)]
          lead_record) = Some VNone.
Proof.
  unfold dict_update. cbn.
  repeat split.
  - rewrite !dict_lookup_set_ne by (vm_compute; discriminate).
    apply dict_lookup_set_eq.
  - rewrite !dict_lookup_set_ne by (vm_compute; discriminate).
    apply dict_lookup_set_eq.
  - rewrite dict_lookup_set_ne by (vm_compute; discriminate).
    apply dict_lookup_set_eq.
Qed.

(** X4: in a deployment whose store does not fail, resetting a lead that is
    in the store succeeds, and the status check that follows reports it
    as not notified, with no time and no result; the lead is open to a
    new dispatch.  Neither operation sends anything. *)
Theorem reset_reopens_lead
    (pf : Platform) (lead_id : pystr) (w : World) :
  firestore_client (collab w) = None ->
  (forall k c, store_fault (collab w) k c = None) ->
  is_Some (leads w !! lead_id) ->
  exists w1 w2,
    reset_notification_status pf lead_id w = (Ret true, w1)
    /\ check_notification_status pf lead_id w1
       = (Ret (VDict [(py "exists", VBool true);
                      (py "was_notified", VBool false);
                      (py "notified_at", VNone);
                      (py "notification_result", VNone);
                      (py "lead_id", VStr lead_id)]), w2)
    /\ fresh_lead w1 lead_id
    /\ sent w2 = sent w.
Proof.
  intros Hclient Hstore [lead_record Hlead].
  unfold reset_notification_status, check_notification_status, fresh_lead.
  unfold update_outcome. run.
  rewrite Hclient; cbn. unfold update_outcome; cbn.
  rewrite Hstore; cbn. rewrite Hlead; cbn.
  eexists _, _. split; [reflexivity|]. cbn.
  rewrite Hclient; cbn. rewrite Hstore; cbn. rewrite lookup_insert_eq; cbn.
  destruct (reset_fields_written (clock w) lead_record) as (Hwas & Hat & Hres).
  unfold dict_update in Hwas, Hat, Hres. cbn in Hwas, Hat, Hres.
  rewrite Hwas, Hat, Hres. split; [reflexivity|]. split; [|reflexivity].
  eexists. split; [reflexivity|]. rewrite Hwas. reflexivity.
Qed.

Lemma reset_reopens_lead_witness :
  exists w1 w2,
    reset_notification_status Fixture.platform (py "L1") Fixture.dispatched.2
    = (Ret true, w1)
    /\ check_notification_status Fixture.platform (py "L1") w1
       = (Ret (VDict [(py "exists", VBool true);
                      (py "was_notified", VBool false);
                      (py "notified_at", VNone);
                      (py "notification_result", VNone);
                      (py "lead_id", VStr (py "L1"))]), w2)
    /\ fresh_lead w1 (py "L1")
    /\ sent w2 = sent Fixture.dispatched.2.
Proof.
  apply (reset_reopens_lead Fixture.platform (py "L1") Fixture.dispatched.2).
  - reflexivity.
  - intros k c. reflexivity.
  - eexists. vm_compute. reflexivity.
Defined.

(** X5: a reset that answers [False] has changed nothing in the store and
    has left the error in the log. *)
Theorem failed_reset_changes_nothing
    (pf : Platform) (lead_id : pystr) (w w' : World) :
  reset_notification_status pf lead_id w = (Ret false, w') ->
  leads w' = leads w
  /\ sent w' = sent w
  /\ exists e, (ERROR, py "❌ Error resetting notification status: " ++ exn_str pf e)
               ∈ logs w'.
Proof.
  unfold reset_notification_status. run.
  destruct (firestore_client (collab w)) as [e|]; cbn.
  - intros Hrun. inversion Hrun; subst; cbn.
    repeat split. exists e.
    apply elem_of_app; right. apply list_elem_of_singleton. reflexivity.
  - destruct (update_outcome _ _ _) as [lead_record'|e]; cbn; intros Hrun;
      inversion Hrun; subst; cbn.
    repeat split. exists e.
    apply elem_of_app; right. apply list_elem_of_singleton. reflexivity.
Qed.

Lemma failed_reset_changes_nothing_witness :
  leads (reset_notification_status Fixture.platform (py "L1")
           Scenario.broken_store_world).2
  = leads Scenario.broken_store_world
  /\ sent (reset_notification_status Fixture.platform (py "L1")
             Scenario.broken_store_world).2
     = sent Scenario.broken_store_world
  /\ exists e,
       (ERROR, py "❌ Error resetting notification status: "
               ++ exn_str Fixture.platform e)
       ∈ logs (reset_notification_status Fixture.platform (py "L1")
                 Scenario.broken_store_world).2.
Proof.
  apply (failed_reset_changes_nothing Fixture.platform (py "L1")
           Scenario.broken_store_world).
  vm_compute. reflexivity.
Defined.

(** X6: the status check only reads: whatever the world and whatever
    fails, it returns, and the stored leads, the messages sent, the clock
    and the collaborators are as before; the store is read at most
    once. *)
Theorem status_check_only_reads
    (pf : Platform) (lead_id : pystr) (w : World) :
  exists r w',
    check_notification_status pf lead_id w = (Ret r, w')
    /\ leads w' = leads w
    /\ sent w' = sent w
    /\ clock w' = clock w
    /\ collab w' = collab w
    /\ (store_calls w' = store_calls w
        \/ store_calls w' = store_calls w ++ [DocGet lead_id]).
Proof.
  unfold check_notification_status. run.
  destruct (firestore_client (collab w)); cbn;
    [eexists _, _; split; [reflexivity|]; cbn; auto 10|].
  destruct (store_fault (collab w) _ _); cbn;
    [eexists _, _; split; [reflexivity|]; cbn; auto 10|].
  destruct (leads w !! lead_id); cbn;
    eexists _, _; (split; [reflexivity|]); cbn; auto 10.
Qed.

(** ** Payloads the extraction cannot read *)

Lemma parse_answers_app (pf : Platform) (xs ys : list PyVal) :
  forall acc : LeadInfo,
  parse_answers pf acc (xs ++ ys)
  = (acc' ← parse_answers pf acc xs; parse_answers pf acc' ys).
Proof.
  induction xs as [|x xs IH]; intros acc; [reflexivity|].
  cbn [app parse_answers]. unfold mbind, outcome_bind.
  destruct (parse_answer pf acc x) as [acc1|e]; [apply IH | reflexivity].
Qed.

(** X7: past the feature gate, a fresh lead whose payload the extraction
    cannot read is not dispatched: the answer is
    [{success: False, reason: "error", message: <the error>,
    notifications_sent: 0}], nothing is sent and nothing is written. *)
Theorem unreadable_payload_is_reported
    (pf : Platform) (lead_id : pystr) (lead_data : PyVal) (w : World) (e : exn) :
  flag_enabled w = true ->
  store_readable w lead_id ->
  fresh_lead w lead_id ->
  extract_lead_info pf lead_data = Raise e ->
  exists w',
    send_new_lead_notification pf lead_id lead_data w
    = (Ret (VDict [(py "success", VBool false);
                   (py "reason", VStr (py "error"));
                   (py "message", VStr (exn_str pf e));
                   (py "notifications_sent", VInt 0)]), w')
    /\ sent w' = sent w
    /\ leads w' = leads w.
Proof.
  intros Hflag [Hclient Hfault] (lead_record & Hlead & Hfresh) Hraise.
  unfold flag_enabled in Hflag.
  unfold send_new_lead_notification. run.
  rewrite Hflag; cbn. rewrite Hclient; cbn. rewrite Hfault; cbn.
  rewrite Hlead; cbn. rewrite Hfresh; cbn. rewrite Hraise; cbn.
  eexists. split; [reflexivity|]. auto.
Qed.

Lemma unreadable_payload_is_reported_witness :
  exists w',
    send_new_lead_notification Fixture.platform (py "L1") VNone Fixture.enabled_world
    = (Ret (VDict [(py "success", VBool false);
                   (py "reason", VStr (py "error"));
                   (py "message", VStr (exn_str Fixture.platform (AttributeError VNone)));
                   (py "notifications_sent", VInt 0)]), w')
    /\ sent w' = sent Fixture.enabled_world
    /\ leads w' = leads Fixture.enabled_world.
Proof.
  apply (unreadable_payload_is_reported Fixture.platform (py "L1") VNone
           Fixture.enabled_world (AttributeError VNone)).
  - reflexivity.
  - split; reflexivity.
  - exists [(py "was_notified", VBool false)]. split; vm_compute; reflexivity.
  - reflexivity.
Defined.

(** X8: an answer with an id of 4 or more whose text is not a string, such
    as a phone given as a number, breaks the extraction: after any typed
    answers and before any others, it raises the [AttributeError] of
    [isdigit] on that value. *)
Theorem phone_that_is_not_text_breaks_extraction
    (pf : Platform) (d : pydict) (before : list (Z * pystr)) (z : Z) (v : PyVal)
    (rest : list PyVal) :
  dict_lookup (py "answers") d
  = Some (VList (map typed_answer before
                 ++ VDict [(py "id", VInt z); (py "answer", v)] :: rest)) ->
  4 <= z ->
  (forall s, v <> VStr s) ->
  extract_lead_info pf (VDict d) = Raise (AttributeError v).
Proof.
  intros Hanswers Hz Hv.
  unfold extract_lead_info, py_get. rewrite Hanswers.
  change (parse_answers pf placeholders
            (map typed_answer before
             ++ VDict [(py "id", VInt z); (py "answer", v)] :: rest)
          = Raise (AttributeError v)).
  rewrite parse_answers_app.
  destruct (parse_answers_typed pf before placeholders) as (info & -> & _).
  cbn [mbind outcome_bind parse_answers]. unfold mbind, outcome_bind.
  assert (Hbad : parse_answer pf info (VDict [(py "id", VInt z); (py "answer", v)])
                 = Raise (AttributeError v)).
  { unfold parse_answer.
    replace (py_get (VDict [(py "id", VInt z); (py "answer", v)]) (py "id") (VInt 0))
      with (Ret (VInt z)) by reflexivity.
    replace (py_get (VDict [(py "id", VInt z); (py "answer", v)]) (py "answer") (VStr []))
      with (Ret v) by reflexivity.
    unfold mbind, outcome_bind. cbn.
    destruct (Z.eqb_spec z 1); [lia|].
    destruct (Z.eqb_spec z 2); [lia|].
    destruct (Z.eqb_spec z 3); [lia|].
    destruct (Z.leb_spec 4 z); [|lia].
    destruct v; try reflexivity. exfalso. eapply Hv. reflexivity. }
  rewrite Hbad. reflexivity.
Qed.

Lemma phone_that_is_not_text_breaks_extraction_witness :
  extract_lead_info Fixture.platform
    (VDict [(py "answers",
             VList (map typed_answer [(1, py "Ana")]
                    ++ VDict [(py "id", VInt 4); (py "answer", VInt 11999999999)]
                       :: [Fixture.answer 2 "Criminal"]))])
  = Raise (AttributeError (VInt 11999999999)).
Proof.
  apply (phone_that_is_not_text_breaks_extraction Fixture.platform
           [(py "answers",
             VList (map typed_answer [(1, py "Ana")]
                    ++ VDict [(py "id", VInt 4); (py "answer", VInt 11999999999)]
                       :: [Fixture.answer 2 "Criminal"]))]
           [(1, py "Ana")] 4 (VInt 11999999999) [Fixture.answer 2 "Criminal"]).
  - reflexivity.
  - lia.
  - intros s. discriminate.
Defined.

(** X9: an answer whose id is a string, [None], a list or a record
    breaks the extraction: such an id equals none of 1, 2, 3 and cannot
    be ordered against 4, so after any typed answers and before any
    others the extraction raises the [TypeError] of comparing the id with
    4. *)
Theorem id_that_is_not_a_number_breaks_extraction
    (pf : Platform) (d : pydict) (before : list (Z * pystr)) (id text : PyVal)
    (rest : list PyVal) :
  dict_lookup (py "answers") d
  = Some (VList (map typed_answer before
                 ++ VDict [(py "id", id); (py "answer", text)] :: rest)) ->
  id = VNone \/ (exists s, id = VStr s) \/ (exists l, id = VList l)
  \/ (exists r, id = VDict r) ->
  extract_lead_info pf (VDict d) = Raise (TypeError id).
Proof.
  intros Hanswers Hid.
  unfold extract_lead_info, py_get. rewrite Hanswers.
  change (parse_answers pf placeholders
            (map typed_answer before
             ++ VDict [(py "id", id); (py "answer", text)] :: rest)
          = Raise (TypeError id)).
  rewrite parse_answers_app.
  destruct (parse_answers_typed pf before placeholders) as (info & -> & _).
  cbn [mbind outcome_bind parse_answers]. unfold mbind, outcome_bind.
  assert (Hbad : parse_answer pf info (VDict [(py "id", id); (py "answer", text)])
                 = Raise (TypeError id)).
  { unfold parse_answer.
    replace (py_get (VDict [(py "id", id); (py "answer", text)]) (py "id") (VInt 0))
      with (Ret id) by reflexivity.
    replace (py_get (VDict [(py "id", id); (py "answer", text)]) (py "answer") (VStr []))
      with (Ret text) by reflexivity.
    unfold mbind, outcome_bind. cbn.
    destruct Hid as [-> | [[s0 ->] | [[l0 ->] | [r0 ->]]]]; reflexivity. }
  rewrite Hbad. reflexivity.
Qed.

Lemma id_that_is_not_a_number_breaks_extraction_witness :
  extract_lead_info Fixture.platform
    (VDict [(py "answers",
             VList (map typed_answer [(1, py "Ana")]
                    ++ VDict [(py "id", VStr (py "4"));
                              (py "answer", VStr (py "11999999999"))] :: []))])
  = Raise (TypeError (VStr (py "4"))).
Proof.
  apply (id_that_is_not_a_number_breaks_extraction Fixture.platform
           [(py "answers",
             VList (map typed_answer [(1, py "Ana")]
                    ++ VDict [(py "id", VStr (py "4"));
                              (py "answer", VStr (py "11999999999"))] :: []))]
           [(1, py "Ana")] (VStr (py "4")) (VStr (py "11999999999")) []).
  - reflexivity.
  - right. left. exists (py "4"). reflexivity.
Defined.

(** ** Who is reported and who is tried *)

Lemma successes_le_length (xs : list PyVal) : successes xs <= Z.of_nat (length xs).
Proof.
  induction xs as [|x xs IH]; [reflexivity|].
  cbn [successes length]. destruct (field (py "success") x) as [[| [|] | | | | |]|]; lia.
Qed.

Lemma count_if_le_length {A : Type} (p : A -> bool) (xs : list A) :
  (count_if p xs <= length xs)%nat.
Proof.
  induction xs as [|x xs IH]; [reflexivity|].
  cbn. destruct (p x); lia.
Qed.

(** One turn of the loop adds an entry to [results] exactly when the
    lawyer has a phone, and hands a message to the client exactly when
    that phone could be formatted, whatever the client then does. *)
Lemma notify_lawyer_accounts
    (pf : Platform) (message : pystr) (acc : list PyVal * Z) (lawyer : pydict) (w : World) :
  exists acc' w',
    notify_lawyer pf message acc lawyer w = (Ret acc', w')
    /\ length acc'.1 = (length acc.1 + count_if has_phone [lawyer])%nat
    /\ length (sent w') = (length (sent w) + count_if (addressable pf) [lawyer])%nat.
Proof.
  unfold notify_lawyer, addressable, has_phone. run.
  destruct (py_truthy (default (VStr []) (dict_lookup (py "phone") lawyer))); cbn.
  - destruct (format_lawyer_phone_for_whatsapp pf _) as [number|e]; cbn.
    + destruct (send_whatsapp_message (collab w) (length (sent w)) number message)
        as [[|]|e]; cbn;
        (eexists _, _; split; [reflexivity|]; cbn;
         rewrite !length_app; cbn; split; lia).
    + eexists _, _; split; [reflexivity|]; cbn.
      rewrite !length_app; cbn; split; lia.
  - eexists _, _; split; [reflexivity|]; cbn. split; lia.
Qed.

Lemma notify_lawyers_accounts
    (pf : Platform) (message : pystr) (lawyers : list pydict) :
  forall (acc : list PyVal * Z) (w : World),
  exists acc' w',
    notify_lawyers pf message acc lawyers w = (Ret acc', w')
    /\ length acc'.1 = (length acc.1 + count_if has_phone lawyers)%nat
    /\ length (sent w') = (length (sent w) + count_if (addressable pf) lawyers)%nat.
Proof.
  induction lawyers as [|lawyer rest IH]; intros acc w.
  - exists acc, w. split; [reflexivity|]. cbn. split; lia.
  - destruct (notify_lawyer_accounts pf message acc lawyer w)
      as (acc1 & w1 & Hrun1 & Hentries1 & Hsent1).
    destruct (IH acc1 w1) as (acc2 & w2 & Hrun2 & Hentries2 & Hsent2).
    exists acc2, w2. split.
    + cbn. unfold mbind, M_bind. rewrite Hrun1. exact Hrun2.
    + cbn in Hentries1, Hsent1. cbn [count_if].
      destruct (has_phone lawyer), (addressable pf lawyer); split; lia.
Qed.

(** The fan-out over a list of lawyers and a message that could be
    built: the record it returns, the entries of its [results] and the
    messages it hands to the client. *)
Lemma send_notifications_accounts
    (pf : Platform) (lead_id : pystr) (name phone area situation : PyVal) (w : World)
    (lawyers : list pydict) (excerpt : pystr) :
  lawyers_for_notification (collab w) = Ret lawyers ->
  situation_excerpt pf situation = Ret excerpt ->
  exists (results : list PyVal) (ts : pystr) (w' : World),
    _send_notifications_to_lawyers pf lead_id name phone area situation w
    = (Ret (fanout_record lead_id (successes results) (length lawyers) results ts), w')
    /\ length results = count_if has_phone lawyers
    /\ length (sent w') = (length (sent w) + count_if (addressable pf) lawyers)%nat.
Proof.
  intros Hlawyers Hexcerpt.
  destruct (send_notifications_completes pf lead_id name phone area situation w)
    as (r & w' & Hrun & _ & Hshape).
  rewrite Hlawyers, Hexcerpt in Hshape.
  destruct Hshape as (n & results & ts & -> & -> & _).
  exists results, ts, w'. split; [exact Hrun|].
  revert Hrun. unfold _send_notifications_to_lawyers, notification_message. run.
  rewrite Hlawyers; cbn. rewrite Hexcerpt; cbn.
  match goal with
  | |- context [notify_lawyers pf ?m ?acc lawyers ?w0] =>
      destruct (notify_lawyers_accounts pf m lawyers acc w0)
        as (acc' & w1 & Hloop & Hentries & Hsent)
  end.
  rewrite Hloop. cbn. intros Hrun. inversion Hrun; subst. cbn in *.
  split; [exact Hentries | exact Hsent].
Qed.

(** X10: a completed fan-out reports every lawyer that has a phone, and only
    those: [results] has one entry for each of them, whether the message
    went out, was declined or could not be sent.  Hence
    [0 <= notifications_sent <= len(results) <= total_lawyers]. *)
Theorem every_lawyer_with_a_phone_is_reported
    (pf : Platform) (lead_id : pystr) (name phone area situation : PyVal) (w : World)
    (lawyers : list pydict) (excerpt : pystr) :
  lawyers_for_notification (collab w) = Ret lawyers ->
  situation_excerpt pf situation = Ret excerpt ->
  exists (n : Z) (results : list PyVal) (ts : pystr) (w' : World),
    _send_notifications_to_lawyers pf lead_id name phone area situation w
    = (Ret (VDict [(py "success", VBool (0 <? n));
                   (py "notifications_sent", VInt n);
                   (py "total_lawyers", VInt (Z.of_nat (length lawyers)));
                   (py "results", VList results);
                   (py "lead_id", VStr lead_id);
                   (py "timestamp", VStr ts)]), w')
    /\ length results = count_if has_phone lawyers
    /\ 0 <= n <= Z.of_nat (length results)
    /\ (length results <= length lawyers)%nat.
Proof.
  intros Hlawyers Hexcerpt.
  destruct (send_notifications_accounts pf lead_id name phone area situation w
              lawyers excerpt Hlawyers Hexcerpt)
    as (results & ts & w' & Hrun & Hentries & _).
  exists (successes results), results, ts, w'.
  split; [exact Hrun|]. split; [exact Hentries|].
  split; [split; [apply successes_nonneg | apply successes_le_length]|].
  rewrite Hentries. apply count_if_le_length.
Qed.

Lemma every_lawyer_with_a_phone_is_reported_witness :
  exists (n : Z) (results : list PyVal) (ts : pystr) (w' : World),
    _send_notifications_to_lawyers Fixture.platform (py "L1")
      (VStr (py "Ana")) (VStr (py "11999999999")) (VStr (py "Criminal"))
      (VStr (py "Dispute")) Scenario.mixed_world
    = (Ret (VDict [(py "success", VBool (0 <? n));
                   (py "notifications_sent", VInt n);
                   (py "total_lawyers", VInt (Z.of_nat (length Scenario.mixed_lawyers)));
                   (py "results", VList results);
                   (py "lead_id", VStr (py "L1"));
                   (py "timestamp", VStr ts)]), w')
    /\ length results = count_if has_phone Scenario.mixed_lawyers
    /\ 0 <= n <= Z.of_nat (length results)
    /\ (length results <= length Scenario.mixed_lawyers)%nat.
Proof.
  apply (every_lawyer_with_a_phone_is_reported Fixture.platform (py "L1")
           (VStr (py "Ana")) (VStr (py "11999999999")) (VStr (py "Criminal"))
           (VStr (py "Dispute")) Scenario.mixed_world Scenario.mixed_lawyers
           (py "Dispute")).
  - reflexivity.
  - vm_compute. reflexivity.
Defined.

(** X11: a completed fan-out hands the client exactly one message for each
    lawyer whose phone could be formatted, whatever the client does with
    the others: a message that is declined or that makes the client
    raise does not keep the next lawyer from being tried. *)
Theorem every_addressable_lawyer_is_tried
    (pf : Platform) (lead_id : pystr) (name phone area situation : PyVal) (w : World)
    (lawyers : list pydict) (excerpt : pystr) :
  lawyers_for_notification (collab w) = Ret lawyers ->
  situation_excerpt pf situation = Ret excerpt ->
  exists (r : PyVal) (w' : World),
    _send_notifications_to_lawyers pf lead_id name phone area situation w = (Ret r, w')
    /\ length (sent w') = (length (sent w) + count_if (addressable pf) lawyers)%nat.
Proof.
  intros Hlawyers Hexcerpt.
  destruct (send_notifications_accounts pf lead_id name phone area situation w
              lawyers excerpt Hlawyers Hexcerpt)
    as (results & ts & w' & Hrun & _ & Hsent).
  eexists _, w'. split; [exact Hrun | exact Hsent].
Qed.

Lemma every_addressable_lawyer_is_tried_witness :
  exists (r : PyVal) (w' : World),
    _send_notifications_to_lawyers Fixture.platform (py "L1")
      (VStr (py "Ana")) (VStr (py "11999999999")) (VStr (py "Criminal"))
      (VStr (py "Dispute")) Scenario.faltering_world = (Ret r, w')
    /\ length (sent w')
       = (length (sent Scenario.faltering_world)
          + count_if (addressable Fixture.platform) Fixture.lawyers)%nat.
Proof.
  apply (every_addressable_lawyer_is_tried Fixture.platform (py "L1")
           (VStr (py "Ana")) (VStr (py "11999999999")) (VStr (py "Criminal"))
           (VStr (py "Dispute")) Scenario.faltering_world Fixture.lawyers
           (py "Dispute")).
  - reflexivity.
  - vm_compute. reflexivity.
Defined.

(** X12: past the feature gate, when the lawyers cannot be listed the
    dispatch of a fresh lead answers
    [{success: False, notifications_sent: 0, error: <the error>}], a
    record without a [reason]; nothing is sent and nothing is written. *)
Theorem unlisted_lawyers_fail_the_dispatch
    (pf : Platform) (lead_id : pystr) (lead_data : PyVal) (w : World)
    (info : LeadInfo) (e : exn) :
  flag_enabled w = true ->
  store_readable w lead_id ->
  fresh_lead w lead_id ->
  extract_lead_info pf lead_data = Ret info ->
  lawyers_for_notification (collab w) = Raise e ->
  exists w',
    send_new_lead_notification pf lead_id lead_data w
    = (Ret (VDict [(py "success", VBool false);
                   (py "notifications_sent", VInt 0);
                   (py "error", VStr (exn_str pf e))]), w')
    /\ sent w' = sent w
    /\ leads w' = leads w.
Proof.
  intros Hflag Hstore Hfresh Hinfo Hlawyers.
  destruct (dispatch_runs_fanout pf lead_id lead_data w info Hflag Hstore Hfresh Hinfo)
    as (r & w1 & w' & Hfan & Hrun & Hsent).
  destruct (send_notifications_completes pf lead_id (lead_name info) (lead_phone info)
              (area info) (situation info) (fanout_start pf lead_id info w))
    as (r0 & w0 & Hfan0 & _ & Hshape).
  rewrite Hfan in Hfan0. injection Hfan0 as <- <-.
  change (collab (fanout_start pf lead_id info w)) with (collab w) in Hshape.
  rewrite Hlawyers in Hshape. destruct Hshape as [-> Hsent1].
  exists w'. split; [exact Hrun|].
  split; [rewrite Hsent, Hsent1; reflexivity|].
  destruct (dispatch_outcomes pf lead_id lead_data w)
    as (r2 & w2 & Hrun2 & _ & [(_ & Hleads & _)|Hdelivered]);
    rewrite Hrun in Hrun2; injection Hrun2 as <- <-; [exact Hleads|].
  destruct Hdelivered as (n & t & _ & _ & Hsuccess & _).
  vm_compute in Hsuccess. discriminate.
Qed.

Lemma unlisted_lawyers_fail_the_dispatch_witness :
  exists w',
    send_new_lead_notification Fixture.platform (py "L1") Fixture.lead_data
      Scenario.unconfigured_world
    = (Ret (VDict [(py "success", VBool false);
                   (py "notifications_sent", VInt 0);
                   (py "error",
                     VStr (exn_str Fixture.platform
                             (External (py "no lawyers configured"))))]), w')
    /\ sent w' = sent Scenario.unconfigured_world
    /\ leads w' = leads Scenario.unconfigured_world.
Proof.
  apply (unlisted_lawyers_fail_the_dispatch Fixture.platform (py "L1")
           Fixture.lead_data Scenario.unconfigured_world
           {| lead_name := VStr (py "Ana"); lead_phone := VStr (py "11999999999");
              area := VStr (py "Criminal"); situation := VStr (py "Dispute") |}
           (External (py "no lawyers configured"))).
  - reflexivity.
  - split; reflexivity.
  - exists [(py "was_notified", VBool false)]. split; vm_compute; reflexivity.
  - vm_compute. reflexivity.
  - reflexivity.
Defined.

(** * Properties of the routes *)

#[local] Arguments py_get : simpl never.
#[local] Arguments py_replace : simpl never.
#[local] Arguments Routes.py_head : simpl never.
#[local] Arguments fmt : simpl never.
#[local] Arguments check_notification_status : simpl never.
#[local] Arguments reset_notification_status : simpl never.
#[local] Arguments strip : simpl never.
#[local] Arguments Routes.contact_template : simpl never.

Ltac route_run :=
  unfold route_try, call, throw, Routes.send_baileys_message;
  unfold mbind, mret, R_bind, R_ret;
  run.

(** ** Strings *)

Lemma replace_from_skips (old new : pystr) (s : pystr) :
  replace_from old new (length s) s = [].
Proof. induction s as [|c s IH]; [reflexivity | exact IH]. Qed.


Lemma lstrip_spaces (pre s : pystr) :
  forallb is_space pre = true -> lstrip (pre ++ s) = lstrip s.
Proof.
  induction pre as [|c pre IH]; [reflexivity|].
  cbn. intros H. apply andb_prop in H as [-> H]. apply IH, H.
Qed.

Lemma forallb_space_rev (s : pystr) : forallb is_space (rev s) = forallb is_space s.
Proof.
  induction s as [|c s IH]; [reflexivity|].
  cbn. rewrite forallb_app, IH. cbn. rewrite andb_true_r. apply andb_comm.
Qed.

(** [strip()] of a text that is framed by white space and that begins
    and ends with something else is that text. *)
Lemma strip_framed (pre post mid : pystr) (c d : N) :
  forallb is_space pre = true ->
  forallb is_space post = true ->
  is_space c = false ->
  is_space d = false ->
  strip (pre ++ (c :: mid ++ [d]) ++ post) = c :: mid ++ [d].
Proof.
  intros Hpre Hpost Hc Hd. unfold strip.
  rewrite lstrip_spaces by exact Hpre.
  cbn [app lstrip]. rewrite Hc.
  replace (rev (c :: (mid ++ [d]) ++ post)) with (rev post ++ d :: rev (c :: mid)).
  2:{ cbn [rev]. rewrite !rev_app_distr. cbn [rev app].
      rewrite <- !app_assoc. reflexivity. }
  rewrite lstrip_spaces by (rewrite forallb_space_rev; exact Hpost).
  cbn [lstrip]. rewrite Hd.
  change (d :: rev (c :: mid)) with ([d] ++ rev (c :: mid)).
  rewrite rev_app_distr, rev_involutive. reflexivity.
Qed.

(** ** The webhook *)

Lemma py_get_dict (d : pydict) (k : pystr) (dflt : PyVal) :
  py_get (VDict d) k dflt = Ret (default dflt (dict_lookup k d)).
Proof. reflexivity. Qed.

Lemma py_replace_str (s old new : pystr) :
  py_replace (VStr s) old new = Ret (str_replace old new s).
Proof. reflexivity. Qed.

(** X13: a payload whose sender is a string or is absent, and that has
    no message or no sender (absent or empty), is turned down before the
    orchestrator is called: the reply is
    [{status: "error", message: "Invalid payload"}] and the only traces
    are two lines of the log.  A sender that is present and not a string
    does not get this far. *)
Theorem webhook_turns_down_incomplete_payload
    (pf : Platform) (bk : Backend) (d : pydict) (sender : pystr) (w : World) :
  default (VStr []) (dict_lookup (py "from") d) = VStr sender ->
  py_truthy (default (VStr []) (dict_lookup (py "message") d)) = false \/ sender = [] ->
  Routes.whatsapp_webhook pf bk (Ret (VDict d)) w
  = (Done (VDict [(py "status", VStr (py "error"));
                  (py "message", VStr (py "Invalid payload"))]),
     log_entry WARNING
       (py "⚠️ Invalid webhook payload - missing message or phone number")
       (log_entry INFO (py "📨 Received WhatsApp webhook: " ++ fmt pf (VDict d)) w)).
Proof.
  intros Hsender Hmissing.
  unfold Routes.whatsapp_webhook. route_run.
  rewrite !py_get_dict, Hsender. cbn.
  rewrite py_replace_str. cbn. rewrite py_get_dict. cbn.
  assert (Hgate : negb (py_truthy (default (VStr []) (dict_lookup (py "message") d)))
                  || negb (py_truthy (VStr sender)) = true).
  { destruct Hmissing as [-> | ->]; [reflexivity|]. apply orb_true_r. }
  cbn in Hgate. rewrite Hgate. reflexivity.
Qed.

Lemma webhook_turns_down_incomplete_payload_witness :
  Routes.whatsapp_webhook Fixture.platform (Office.backend Office.greeting)
    (Ret (VDict [(py "from", VStr (py "5511999999999@s.whatsapp.net"))]))
    Fixture.enabled_world
  = (Done (VDict [(py "status", VStr (py "error"));
                  (py "message", VStr (py "Invalid payload"))]),
     log_entry WARNING
       (py "⚠️ Invalid webhook payload - missing message or phone number")
       (log_entry INFO
          (py "📨 Received WhatsApp webhook: "
           ++ fmt Fixture.platform
                (VDict [(py "from", VStr (py "5511999999999@s.whatsapp.net"))]))
          Fixture.enabled_world)).
Proof.
  apply (webhook_turns_down_incomplete_payload Fixture.platform
           (Office.backend Office.greeting)
           [(py "from", VStr (py "5511999999999@s.whatsapp.net"))]
           (py "5511999999999@s.whatsapp.net") Fixture.enabled_world).
  - reflexivity.
  - left. reflexivity.
Defined.

(** X14: a payload whose sender is a JSON value other than a string, such
    as [null] or a number, is not turned down as invalid: computing the
    default session id fails on it, whether or not the payload names a
    session, and the reply is the internal-error one; the orchestrator is
    not called. *)
Theorem webhook_sender_that_is_not_text
    (pf : Platform) (bk : Backend) (d : pydict) (sender : PyVal) (w : World) :
  dict_lookup (py "from") d = Some sender ->
  (forall s, sender <> VStr s) ->
  (forall t, sender <> VTime t) ->
  Routes.whatsapp_webhook pf bk (Ret (VDict d)) w
  = (Done (VDict [(py "status", VStr (py "error"));
                  (py "message", VStr (exn_str pf (AttributeError sender)));
                  (py "response",
                    VStr (py "Desculpe, ocorreu um erro interno. Nossa equipe foi notificada e entrará em contato em breve."))]),
     log_entry ERROR
       (py "❌ Error processing WhatsApp webhook: " ++ exn_str pf (AttributeError sender))
       (log_entry INFO (py "📨 Received WhatsApp webhook: " ++ fmt pf (VDict d)) w)).
Proof.
  intros Hsender Hnot Hjson.
  unfold Routes.whatsapp_webhook. route_run.
  rewrite !py_get_dict, Hsender. cbn.
  assert (Hraise : py_replace sender (py "@s.whatsapp.net") []
                   = Raise (AttributeError sender)).
  { destruct sender; try reflexivity; exfalso;
      [eapply Hnot | eapply Hjson]; reflexivity. }
  rewrite Hraise. reflexivity.
Qed.

Lemma webhook_sender_that_is_not_text_witness :
  Routes.whatsapp_webhook Fixture.platform (Office.backend Office.greeting)
    (Ret (VDict ((py "sessionId", VStr (py "S1")) :: Office.payload VNone)))
    Fixture.enabled_world
  = (Done (VDict [(py "status", VStr (py "error"));
                  (py "message",
                    VStr (exn_str Fixture.platform (AttributeError VNone)));
                  (py "response",
                    VStr (py "Desculpe, ocorreu um erro interno. Nossa equipe foi notificada e entrará em contato em breve."))]),
     log_entry ERROR
       (py "❌ Error processing WhatsApp webhook: "
        ++ exn_str Fixture.platform (AttributeError VNone))
       (log_entry INFO
          (py "📨 Received WhatsApp webhook: "
           ++ fmt Fixture.platform
                (VDict ((py "sessionId", VStr (py "S1")) :: Office.payload VNone)))
          Fixture.enabled_world)).
Proof.
  apply (webhook_sender_that_is_not_text Fixture.platform
           (Office.backend Office.greeting)
           ((py "sessionId", VStr (py "S1")) :: Office.payload VNone) VNone
           Fixture.enabled_world).
  - reflexivity.
  - intros s. discriminate.
  - intros t. discriminate.
Defined.

(** X15: the webhook always replies, whatever the request, the orchestrator
    and the world are: with [status: "success"] and a response that is
    not empty, or with [status: "error"]. *)
Theorem webhook_always_replies
    (pf : Platform) (bk : Backend) (request_json : outcome PyVal) (w : World) :
  exists (r : PyVal) (w' : World),
    Routes.whatsapp_webhook pf bk request_json w = (Done r, w')
    /\ ((field (py "status") r = Some (VStr (py "success"))
         /\ exists reply, field (py "response") r = Some reply
                          /\ py_truthy reply = true)
        \/ field (py "status") r = Some (VStr (py "error"))).
Proof.
  unfold Routes.whatsapp_webhook. route_run.
  destruct request_json as [payload|e]; cbn;
    [|eexists _, _; split; [reflexivity|]; right; reflexivity].
  destruct (py_get payload (py "message") _) as [message_text|e]; cbn;
    [|eexists _, _; split; [reflexivity|]; right; reflexivity].
  destruct (py_get payload (py "from") _) as [phone_number|e]; cbn;
    [|eexists _, _; split; [reflexivity|]; right; reflexivity].
  destruct (py_get payload (py "messageId") _) as [message_id|e]; cbn;
    [|eexists _, _; split; [reflexivity|]; right; reflexivity].
  destruct (py_replace phone_number _ _) as [bare_number|e]; cbn;
    [|eexists _, _; split; [reflexivity|]; right; reflexivity].
  destruct (py_get payload (py "sessionId") _) as [session_id|e]; cbn;
    [|eexists _, _; split; [reflexivity|]; right; reflexivity].
  destruct (negb (py_truthy message_text) || negb (py_truthy phone_number)); cbn;
    [eexists _, _; split; [reflexivity|]; right; reflexivity|].
  destruct (Routes.py_head pf message_text 50) as [head|e]; cbn;
    [|eexists _, _; split; [reflexivity|]; right; reflexivity].
  destruct (process_message bk message_text session_id phone_number _)
    as [[response|e] w2]; cbn;
    [|eexists _, _; split; [reflexivity|]; right; reflexivity].
  destruct (py_get response (py "response") _) as [ai_response|e]; cbn;
    [|eexists _, _; split; [reflexivity|]; right; reflexivity].
  destruct (py_truthy ai_response) eqn:Hreply; cbn.
  - destruct (Routes.py_head pf ai_response 100) as [shown|e]; cbn;
      [|eexists _, _; split; [reflexivity|]; right; reflexivity].
    destruct (py_get response (py "response_type") _) as [response_type|e]; cbn;
      [|eexists _, _; split; [reflexivity|]; right; reflexivity].
    destruct (py_get response (py "message_count") _) as [message_count|e]; cbn;
      [|eexists _, _; split; [reflexivity|]; right; reflexivity].
    eexists _, _; split; [reflexivity|]. left. split; [reflexivity|].
    exists ai_response. split; [reflexivity | exact Hreply].
  - eexists _, _; split; [reflexivity|]. left. split; [reflexivity|].
    eexists. split; [reflexivity|]. vm_compute. reflexivity.
Qed.

Lemma py_head_str (pf : Platform) (s : pystr) (k : nat) :
  Routes.py_head pf (VStr s) k = Ret (take k s).
Proof. reflexivity. Qed.

Lemma str_truthy (s : pystr) : s <> [] -> py_truthy (VStr s) = true.
Proof. intros Hs. cbn. rewrite bool_decide_eq_false_2 by exact Hs. reflexivity. Qed.



(** X17: when the orchestrator returns a record without a response, or with
    an empty one, the webhook still replies with success: the response
    is the fixed acknowledgement and its type is ["fallback"]. *)
Theorem webhook_falls_back_without_ai_response
    (pf : Platform) (bk : Backend) (d resp : pydict) (m p : pystr) (w : World) :
  default (VStr []) (dict_lookup (py "message") d) = VStr m ->
  m <> [] ->
  default (VStr []) (dict_lookup (py "from") d) = VStr p ->
  p <> [] ->
  (forall msg sid ph w1, exists w2,
      process_message bk msg sid ph w1 = (Ret (VDict resp), w2)) ->
  py_truthy (default (VStr []) (dict_lookup (py "response") resp)) = false ->
  exists w',
    Routes.whatsapp_webhook pf bk (Ret (VDict d)) w
    = (Done (VDict [(py "status", VStr (py "success"));
                    (py "message_id",
                      default (VStr []) (dict_lookup (py "messageId") d));
                    (py "session_id",
                      default (VStr (py "whatsapp_"
                                     ++ str_replace (py "@s.whatsapp.net") [] p))
                        (dict_lookup (py "sessionId") d));
                    (py "response",
                      VStr (py "Obrigado pela sua mensagem. Nossa equipe entrará em contato em breve."));
                    (py "response_type", VStr (py "fallback"))]), w').
Proof.
  intros Hmessage Hm Hsender Hp Hprocess Hempty.
  pose proof (str_truthy m Hm) as Htext.
  pose proof (str_truthy p Hp) as Hphone.
  unfold Routes.whatsapp_webhook. route_run.
  rewrite !py_get_dict, Hmessage, Hsender. cbn.
  rewrite py_replace_str. cbn. rewrite py_get_dict. cbn.
  cbn in Htext, Hphone. rewrite Htext, Hphone. cbn.
  rewrite py_head_str. cbn.
  match goal with
  | |- context [process_message bk ?a ?b ?c ?w1] =>
      destruct (Hprocess a b c w1) as [w2 Hcalled]; rewrite Hcalled
  end.
  cbn. rewrite py_get_dict. cbn. rewrite Hempty. cbn.
  eexists. reflexivity.
Qed.

Lemma webhook_falls_back_without_ai_response_witness :
  exists w',
    Routes.whatsapp_webhook Fixture.platform (Office.backend (VDict []))
      (Ret (VDict (Office.payload (VStr (py "5511999999999@s.whatsapp.net")))))
      Fixture.enabled_world
    = (Done (VDict [(py "status", VStr (py "success"));
                    (py "message_id",
                      default (VStr [])
                        (dict_lookup (py "messageId")
                           (Office.payload (VStr (py "5511999999999@s.whatsapp.net")))));
                    (py "session_id",
                      default (VStr (py "whatsapp_"
                                     ++ str_replace (py "@s.whatsapp.net") []
                                          (py "5511999999999@s.whatsapp.net")))
                        (dict_lookup (py "sessionId")
                           (Office.payload (VStr (py "5511999999999@s.whatsapp.net")))));
                    (py "response",
                      VStr (py "Obrigado pela sua mensagem. Nossa equipe entrará em contato em breve."));
                    (py "response_type", VStr (py "fallback"))]), w').
Proof.
  apply (webhook_falls_back_without_ai_response Fixture.platform
           (Office.backend (VDict []))
           (Office.payload (VStr (py "5511999999999@s.whatsapp.net"))) []
           (py "Bom dia") (py "5511999999999@s.whatsapp.net") Fixture.enabled_world).
  - reflexivity.
  - vm_compute. discriminate.
  - reflexivity.
  - vm_compute. discriminate.
  - intros msg sid ph w1. exists w1. reflexivity.
  - reflexivity.
Defined.

(** ** The manual endpoints *)

Lemma status_check_returns (pf : Platform) (lead_id : pystr) (w : World) :
  exists r w', check_notification_status pf lead_id w = (Ret r, w').
Proof.
  unfold check_notification_status. run.
  destruct (firestore_client (collab w)); cbn; [eexists _, _; reflexivity|].
  destruct (store_fault (collab w) _ _); cbn; [eexists _, _; reflexivity|].
  destruct (leads w !! lead_id); cbn; eexists _, _; reflexivity.
Qed.

Lemma reset_returns (pf : Platform) (lead_id : pystr) (w : World) :
  exists b w', reset_notification_status pf lead_id w = (Ret b, w').
Proof.
  unfold reset_notification_status. run.
  destruct (firestore_client (collab w)); cbn; [eexists _, _; reflexivity|].
  destruct (update_outcome _ _ _); cbn; eexists _, _; reflexivity.
Qed.

(** X18: the manual send hands the message to the client once.  It returns
    the success body when the client accepts it; when the client
    declines or raises, the caller gets an HTTP 500 whose detail is
    ["WhatsApp message sending error"]: the [HTTPException] with detail
    ["Failed to send WhatsApp message"] is raised inside the [try], is
    caught by its own handler and only reaches the log. *)
Theorem manual_send_has_one_error_detail
    (pf : Platform) (bk : Backend) (phone_number message : pystr) (w : World) :
  exists w',
    sent w' = sent w ++ [(phone_number, message)]
    /\ match send_whatsapp_message (collab w) (length (sent w)) phone_number message with
       | Ret true =>
           Routes.send_whatsapp_message pf bk phone_number message w
           = (Done (VDict [(py "status", VStr (py "success"));
                           (py "message", VStr (py "WhatsApp message sent successfully"));
                           (py "to", VStr phone_number)]), w')
       | Ret false =>
           Routes.send_whatsapp_message pf bk phone_number message w
           = (Thrown (HTTPException 500 (py "WhatsApp message sending error")), w')
           /\ (ERROR, py "❌ Error sending WhatsApp message: "
                      ++ http_exception_str bk 500 (py "Failed to send WhatsApp message"))
              ∈ logs w'
       | Raise e =>
           Routes.send_whatsapp_message pf bk phone_number message w
           = (Thrown (HTTPException 500 (py "WhatsApp message sending error")), w')
           /\ (ERROR, py "❌ Error sending WhatsApp message: " ++ exn_str pf e) ∈ logs w'
       end.
Proof.
  unfold Routes.send_whatsapp_message. route_run.
  destruct (send_whatsapp_message (collab w) (length (sent w)) phone_number message)
    as [[|]|e]; cbn.
  - eexists. split; [|reflexivity]. reflexivity.
  - eexists. split; [|split; [reflexivity|]]; cbn; [reflexivity|].
    apply elem_of_app; right. apply list_elem_of_singleton. reflexivity.
  - eexists. split; [|split; [reflexivity|]]; cbn; [reflexivity|].
    apply elem_of_app; right. apply list_elem_of_singleton. reflexivity.
Qed.

(** X19: starting the service returns the success body when Baileys reports
    a start; otherwise, whether Baileys reports a failure or raises, the
    caller gets an HTTP 500 whose detail is
    ["WhatsApp service start error"], never
    ["Failed to start WhatsApp service"], which only reaches the log. *)
Theorem service_start_has_one_error_detail
    (pf : Platform) (bk : Backend) (w : World) :
  match baileys_start bk (log_entry INFO (py "🚀 Starting Baileys WhatsApp service") w) with
  | (Ret true, w1) =>
      Routes.start_whatsapp_service pf bk w
      = (Done (VDict [(py "status", VStr (py "success"));
                      (py "message",
                        VStr (py "Baileys WhatsApp service started successfully"));
                      (py "note",
                        VStr (py "Check console for QR code if first time setup"))]), w1)
  | (Ret false, w1) =>
      Routes.start_whatsapp_service pf bk w
      = (Thrown (HTTPException 500 (py "WhatsApp service start error")),
         log_entry ERROR
           (py "❌ Error starting WhatsApp service: "
            ++ http_exception_str bk 500 (py "Failed to start WhatsApp service")) w1)
  | (Raise e, w1) =>
      Routes.start_whatsapp_service pf bk w
      = (Thrown (HTTPException 500 (py "WhatsApp service start error")),
         log_entry ERROR (py "❌ Error starting WhatsApp service: " ++ exn_str pf e) w1)
  end.
Proof.
  unfold Routes.start_whatsapp_service. route_run.
  destruct (baileys_start bk _) as [[[|]|e] w1]; reflexivity.
Qed.

(** X20: the test endpoint never reports success.  Whatever the backend and
    the world, it answers
    [{status: "error", message: "Failed to test lawyer notifications",
    error: ...}]; and when the test lead was saved, so that whatever
    saving a lead sets off has happened, the error is the [NameError] of
    [os], which the module uses on line 200 without importing it. *)
Theorem test_endpoint_never_succeeds
    (pf : Platform) (bk : Backend) (w : World) :
  exists (error : pystr) (w' : World),
    Routes.test_lawyer_notifications pf bk w
    = (Done (VDict [(py "status", VStr (py "error"));
                    (py "message", VStr (py "Failed to test lawyer notifications"));
                    (py "error", VStr error)]), w')
    /\ forall lead_id w1,
         save_lead_data bk Routes.test_lead_data
           (log_entry INFO (py "🧪 Testing lawyer notification system") w)
         = (Ret lead_id, w1) ->
         error = py "name 'os' is not defined".
Proof.
  unfold Routes.test_lawyer_notifications. route_run.
  destruct (save_lead_data bk _ _) as [[lead_id|e] w1]; cbn.
  - destruct (status_check_returns pf lead_id w1) as (status & w2 & Hcheck).
    rewrite Hcheck. cbn.
    eexists _, _. split; [reflexivity|]. intros _ _ _. vm_compute. reflexivity.
  - eexists _, _. split; [reflexivity|]. intros lead_id w2 Hsaved. discriminate.
Qed.

(** X21: the status endpoint returns what the service returns, in the world
    the service leaves; its own error branch is never taken. *)
Theorem status_endpoint_passes_the_service_through
    (pf : Platform) (bk : Backend) (lead_id : pystr) (w : World) :
  exists (r : PyVal) (w' : World),
    check_notification_status pf lead_id w = (Ret r, w')
    /\ Routes.check_lead_notification_status pf bk lead_id w = (Done r, w').
Proof.
  destruct (status_check_returns pf lead_id w) as (r & w' & Hcheck).
  exists r, w'. split; [exact Hcheck|].
  unfold Routes.check_lead_notification_status. route_run.
  rewrite Hcheck. reflexivity.
Qed.

(** X22: the reset endpoint reports what the service answered: [success] is
    the boolean of the service and the message says which of the two it
    was; its own error branch is never taken. *)
Theorem reset_endpoint_reports_the_service
    (pf : Platform) (bk : Backend) (lead_id : pystr) (w : World) :
  exists (success : bool) (w' : World),
    reset_notification_status pf lead_id w = (Ret success, w')
    /\ Routes.reset_lead_notification_status pf bk lead_id w
       = (Done (VDict [(py "success", VBool success);
                       (py "message",
                         VStr (if success
                               then py "Notification status reset for lead " ++ lead_id
                               else py "Failed to reset notification status"));
                       (py "lead_id", VStr lead_id)]), w').
Proof.
  destruct (reset_returns pf lead_id w) as (success & w' & Hreset).
  exists success, w'. split; [exact Hreset|].
  unfold Routes.reset_lead_notification_status. route_run.
  rewrite Hreset. reflexivity.
Qed.

(** ** The contact suggestion *)

Lemma contact_template_stripped
    (pf : Platform) (session_id user_name : pystr) (t : nat) :
  strip (Routes.contact_template pf session_id user_name t)
  = contact_notice pf session_id user_name t.
Proof.
  assert (Hbell : exists t0, py "🔔 *Nova Lead do Chatbot AI*" = 128276%N :: t0)
    by (eexists; vm_compute; reflexivity).
  assert (Hsign : exists t1,
             py "_Mensagem enviada automaticamente pelo sistema._" = t1 ++ [95%N]).
  { exists (removelast (py "_Mensagem enviada automaticamente pelo sistema._")).
    vm_compute. reflexivity. }
  destruct Hbell as [t0 Hbell]. destruct Hsign as [t1 Hsign].
  unfold Routes.contact_template, contact_notice. rewrite Hbell, Hsign.
  set (middle := nl ++ nl ++ py "👤 *Cliente:* " ++ user_name ++ nl
                 ++ py "🆔 *Sessão:* " ++ session_id ++ nl
                 ++ py "⏰ *Horário:* " ++ strftime pf t ++ nl
                 ++ py "🤖 *Origem:* Conversa inteligente com IA" ++ nl ++ nl
                 ++ py "O cliente interagiu com nosso assistente AI e demonstrou interesse em nossos serviços jurídicos."
                 ++ nl ++ nl).
  replace (nl ++ (128276%N :: t0) ++ nl ++ nl ++ py "👤 *Cliente:* " ++ user_name ++ nl
           ++ py "🆔 *Sessão:* " ++ session_id ++ nl
           ++ py "⏰ *Horário:* " ++ strftime pf t ++ nl
           ++ py "🤖 *Origem:* Conversa inteligente com IA" ++ nl ++ nl
           ++ py "O cliente interagiu com nosso assistente AI e demonstrou interesse em nossos serviços jurídicos."
           ++ nl ++ nl ++ (t1 ++ [95%N]) ++ nl ++ py "        ")
    with (nl ++ (128276%N :: (t0 ++ middle ++ t1) ++ [95%N]) ++ (nl ++ py "        ")).
  2:{ unfold middle. cbn [app]. rewrite <- ?app_assoc. cbn [app].
      rewrite <- ?app_assoc. reflexivity. }
  rewrite strip_framed by (vm_compute; reflexivity).
  unfold middle. cbn [app]. rewrite <- ?app_assoc. cbn [app].
  rewrite <- ?app_assoc. reflexivity.
Qed.

(** X23: the contact suggestion hands the client exactly one message, for
    the firm's number [+5511918368812], whatever the session and the
    user: the notice from the bell to the signature.  The reply says
    ["success"] when the client accepts it, ["partial"] when it
    declines, and ["error"] when it raises. *)
Theorem contact_suggestion_goes_to_the_firm
    (pf : Platform) (bk : Backend) (session_id : pystr) (user_name : option pystr)
    (w : World) :
  exists w',
    sent w'
    = sent w ++ [(py "+5511918368812",
                  contact_notice pf session_id (default (py "Cliente") user_name)
                    (clock w))]
    /\ match send_whatsapp_message (collab w) (length (sent w)) (py "+5511918368812")
               (contact_notice pf session_id (default (py "Cliente") user_name)
                  (clock w)) with
       | Ret success =>
           exists suggestion,
             Routes.suggest_whatsapp_contact pf bk session_id user_name w
             = (Done (VDict [(py "status",
                               VStr (if success then py "success" else py "partial"));
                             (py "message",
                               VStr (py "WhatsApp contact suggested to user"));
                             (py "notification_sent", VBool success);
                             (py "whatsapp_number", VStr (py "+55 11 91836-8812"));
                             (py "suggestion_text", VStr suggestion)]), w')
       | Raise e =>
           Routes.suggest_whatsapp_contact pf bk session_id user_name w
           = (Done (VDict [(py "status", VStr (py "error"));
                           (py "message",
                             VStr (py "Failed to suggest WhatsApp contact"));
                           (py "error", VStr (exn_str pf e))]), w')
       end.
Proof.
  unfold Routes.suggest_whatsapp_contact. route_run.
  rewrite contact_template_stripped.
  destruct (send_whatsapp_message (collab w) (length (sent w)) _ _) as [success|e]; cbn.
  - eexists. split; [|eexists; reflexivity]. reflexivity.
  - eexists. split; [|reflexivity]. reflexivity.
Qed.
